(** * DEEP burn watcher: the burn-event monitoring engine

    A shallow embedding of the [DeepBurnWatcher] class (the version with
    treasury events, balance-diff fallback and a bounded history, and the
    earlier single-topic version in [index.ts]) together with the
    properties of its metrics snapshot.

    Conventions.
    - A JavaScript [number] is a finite exact rational or [NaN]; rounding to
      binary64, signed zeros and infinities are outside the model.
    - A method of the class is a function on the watcher ([this]) that
      returns the updated watcher; every reading of the wall clock
      ([Date.now()], [new Date()]) and every answer of the RPC client is an
      explicit argument.
    - An [async] method runs to completion before the next callback runs;
      the refresh, which reads and writes the snapshot on both sides of an
      [await], is also given split at that [await] ([Overlap]).
    - A timer is recorded with the delay handed to [setInterval]; the
      delay it runs with is [Node.period].
    - Console output ([displayMetrics], the log lines) is not part of the
      state and is left out. *)

From Stdlib Require Import QArith Qcanon.
From stdpp Require Import base numbers strings list gmap pretty.

(** ** JavaScript values *)

Module Js.

Inductive number := NaN | Fin (q : Qc).

#[global] Instance number_eq_dec : EqDecision number.
Proof. solve_decision. Defined.

Definition of_Z (z : Z) : number := Fin (Qc_of_Z z).

Definition add (a b : number) : number :=
  match a, b with
  | Fin x, Fin y => Fin (x + y)%Qc
  | _, _ => NaN
  end.

Definition sub (a b : number) : number :=
  match a, b with
  | Fin x, Fin y => Fin (x - y)%Qc
  | _, _ => NaN
  end.

(** [a / b].  The program only divides by powers of ten; a zero divisor
    (an infinity or [NaN] in JavaScript) is mapped to [NaN]. *)
Definition div (a b : number) : number :=
  match a, b with
  | Fin x, Fin y => if decide (y = 0%Qc) then NaN else Fin (x / y)%Qc
  | _, _ => NaN
  end.

(** [a < b] and [a > b]: false as soon as one side is [NaN]. *)
Definition lt (a b : number) : bool :=
  match a, b with
  | Fin x, Fin y => bool_decide (x < y)%Qc
  | _, _ => false
  end.

Definition gt (a b : number) : bool := lt b a.

(** The mathematical order on finite numbers, for stating properties. *)
Definition le (a b : number) : Prop :=
  match a, b with
  | Fin x, Fin y => (x ≤ y)%Qc
  | _, _ => False
  end.

(** [Math.pow(10, d)] for a natural exponent. *)
Definition pow10 (d : nat) : number := of_Z (10 ^ Z.of_nat d).

(** ToBoolean on numbers, and [a || b] on numbers. *)
Definition truthy_number (a : number) : bool :=
  match a with
  | NaN => false
  | Fin x => bool_decide (x ≠ 0%Qc)
  end.

Definition or (a b : number) : number := if truthy_number a then a else b.

(** The primitive values a JSON payload field can hold. *)
Inductive value :=
| Undefined
| Null
| Boolean (b : bool)
| Number (n : number)
| String (s : string).

#[global] Instance value_eq_dec : EqDecision value.
Proof. solve_decision. Defined.

(** ToBoolean. *)
Definition truthy (v : value) : bool :=
  match v with
  | Undefined | Null => false
  | Boolean b => b
  | Number n => truthy_number n
  | String s => negb (String.eqb s "")
  end.

(** How the built-in [Number] reads a string is a parameter of the
    development; all that is assumed is that a decimal numeral is read
    as the natural number it denotes. *)
Class StringReader := {
  StringToNumber : string → number;
  StringToNumber_pretty (n : N) : StringToNumber (pretty n) = of_Z (Z.of_N n)
}.

(** [Number(v)]. *)
Definition ToNumber `{!StringReader} (v : value) : number :=
  match v with
  | Undefined => NaN
  | Null => of_Z 0
  | Boolean b => if b then of_Z 1 else of_Z 0
  | Number n => n
  | String s => StringToNumber s
  end.

(** Property access [o.k] on an object used as a map, [undefined] when the
    key is absent. *)
Definition get (o : gmap string value) (k : string) : value :=
  default Undefined (o !! k).

(** [TimeClip] of [new Date(t)]: the time value is [NaN] outside
    +-8.64e15 ms and is truncated towards zero otherwise. *)
Definition TimeClip (t : number) : number :=
  match t with
  | NaN => NaN
  | Fin q =>
      if bool_decide (Qc_of_Z (-8640000000000000) ≤ q)%Qc
         && bool_decide (q ≤ Qc_of_Z 8640000000000000)%Qc
      then of_Z (Qnum (this q) ÷ Z.pos (Qden (this q)))
      else NaN
  end.

End Js.

(** A reader for decimal numerals; every other string is not a number for
  it.  It instantiates [Js.StringReader] in the closed examples. *)
Module DecimalReader.

Definition digit (c : Ascii.ascii) : option N :=
  let n := Ascii.N_of_ascii c in
  if bool_decide (48 ≤ n ≤ 57)%N then Some (n - 48)%N else None.

Fixpoint read_go (acc : N) (s : string) : option N :=
  match s with
  | EmptyString => Some acc
  | String.String c s' =>
      match digit c with
      | Some d => read_go (acc * 10 + d) s'
      | None => None
      end
  end.

Definition read (s : string) : Js.number :=
  match read_go 0 s with
  | Some n => Js.of_Z (Z.of_N n)
  | None => Js.NaN
  end.

Lemma digit_pretty_N_char (x : N) :
  (x < 10)%N → digit (pretty_N_char x) = Some x.
Proof.
  intros Hx. destruct x as [|p]; [reflexivity|].
  do 4 (try destruct p as [p|p|]); try reflexivity; lia.
Qed.

Lemma read_go_pretty_N_go (x : N) (s : string) :
  read_go 0 (pretty_N_go x s) = read_go x s.
Proof.
  revert s. induction (N.lt_wf_0 x) as [x _ IH]. intros s.
  destruct (decide (x = 0)%N) as [-> | Hx].
  - by rewrite pretty_N_go_0.
  - rewrite pretty_N_go_step by lia.
    rewrite IH by (apply N.div_lt; lia).
    simpl. rewrite digit_pretty_N_char by (apply N.mod_lt; lia).
    f_equal. rewrite (N.div_mod x 10) at 3 by lia. lia.
Qed.

Lemma read_pretty (n : N) : read (pretty n) = Js.of_Z (Z.of_N n).
Proof.
  unfold read, pretty, pretty_N. case_decide as Hn.
  - by subst.
  - by rewrite read_go_pretty_N_go.
Qed.

#[global] Instance reader : Js.StringReader :=
  {| Js.StringToNumber := read; Js.StringToNumber_pretty := read_pretty |}.

End DecimalReader.

(** ** Exceptions

    The completion of a block that may throw, and of an awaited promise. *)

Inductive Completion (A : Type) :=
| Normal (a : A)
| Throw (error : string).
Arguments Normal {A} a.
Arguments Throw {A} error.

#[global] Instance Completion_ret : MRet Completion := λ A a, Normal a.
#[global] Instance Completion_bind : MBind Completion := λ A B k c,
  match c with
  | Normal a => k a
  | Throw e => Throw e
  end.

(** ** The watcher (current version) *)

Module Watcher.

Definition DEEPBOOK_PACKAGE_ID : string :=
  "0x2c8d603bc51326b8c13cef9dd07031a408a48dddb541963357661df5d3204809".
Definition DEEP_TREASURY_ID : string :=
  "0x032abf8948dda67a271bcc18e776dbbcfb0d58c8d288a700ff0d5521e57a1ffe".
Definition DEEP_TOKEN_ADDRESS : string :=
  "0xdeeb7a4662eec9f2f3def03fb937a663dddaa2e215b8078a284d026b7946c270".
Definition DEEP_TOKEN_TYPE : string := DEEP_TOKEN_ADDRESS +:+ "::deep::DEEP".

Definition TREASURY_EVENTS : list string :=
  [ DEEPBOOK_PACKAGE_ID +:+ "::treasury::BurnEvent";
    DEEPBOOK_PACKAGE_ID +:+ "::treasury::DeepBurnEvent";
    DEEP_TOKEN_ADDRESS +:+ "::deep::BurnEvent" ].

(** A [Date] is represented by its time value ([getTime()]), [NaN] for an
    invalid date. *)
Definition Date : Type := Js.number.
Definition getTime (d : Date) : Js.number := d.
Definition new_Date (t : Js.number) : Date := Js.TimeClip t.

Record BurnEvent := {
  txId : string;
  amount : Js.number;
  timestamp : Date;
  eventType : string
}.

Record DeepTokenMetrics := {
  currentSupply : Js.number;
  totalBurned : Js.number;
  burnRate24h : Js.number;
  lastBurnTx : string;
  lastBurnAmount : Js.number;
  lastBurnTimestamp : Date;
  treasuryBalance : Js.number;
  burnEvents : list BurnEvent;
  circulatingSupply : Js.number
}.

(** The fields of the class instance.  [unsubscribe] is [null] or a closure
    that calls the unsubscribe functions obtained so far, in the order they
    were obtained; it is represented by the topics they belong to. *)
Record DeepBurnWatcher := {
  metrics : DeepTokenMetrics;
  refreshInterval : Z;
  unsubscribe : option (list string);
  DEEP_DECIMALS : nat
}.

#[global] Instance BurnEvent_eq_dec : EqDecision BurnEvent.
Proof. solve_decision. Defined.
#[global] Instance DeepTokenMetrics_eq_dec : EqDecision DeepTokenMetrics.
Proof. solve_decision. Defined.
#[global] Instance DeepBurnWatcher_eq_dec : EqDecision DeepBurnWatcher.
Proof. solve_decision. Defined.

Definition set_metrics (m : DeepTokenMetrics) (w : DeepBurnWatcher) : DeepBurnWatcher :=
  {| metrics := m;
     refreshInterval := refreshInterval w;
     unsubscribe := unsubscribe w;
     DEEP_DECIMALS := DEEP_DECIMALS w |}.

Definition set_unsubscribe (u : option (list string)) (w : DeepBurnWatcher)
  : DeepBurnWatcher :=
  {| metrics := metrics w;
     refreshInterval := refreshInterval w;
     unsubscribe := u;
     DEEP_DECIMALS := DEEP_DECIMALS w |}.

(** [constructor()] *)
Definition constructor : DeepBurnWatcher :=
  {| metrics :=
       {| currentSupply := Js.of_Z 0;
          totalBurned := Js.of_Z 0;
          burnRate24h := Js.of_Z 0;
          lastBurnTx := "";
          lastBurnAmount := Js.of_Z 0;
          lastBurnTimestamp := new_Date (Js.of_Z 0);
          treasuryBalance := Js.of_Z 0;
          burnEvents := [];
          circulatingSupply := Js.of_Z 0 |};
     refreshInterval := 15000;
     unsubscribe := None;
     DEEP_DECIMALS := 6 |}.

(** [calculateBurnRates()], with [now] the value of [Date.now()]. *)
Definition in_last_24h (now : Z) (event : BurnEvent) : bool :=
  Js.lt (Js.sub (Js.of_Z now) (getTime (timestamp event))) (Js.of_Z 86400000).

Definition calculateBurnRates (now : Z) (w : DeepBurnWatcher) : DeepBurnWatcher :=
  let m := metrics w in
  let burns24h := List.filter (in_last_24h now) (burnEvents m) in
  set_metrics
    {| currentSupply := currentSupply m;
       totalBurned := totalBurned m;
       burnRate24h :=
         fold_left (λ sum event, Js.add sum (amount event)) burns24h (Js.of_Z 0);
       lastBurnTx := lastBurnTx m;
       lastBurnAmount := lastBurnAmount m;
       lastBurnTimestamp := lastBurnTimestamp m;
       treasuryBalance := treasuryBalance m;
       burnEvents := burnEvents m;
       circulatingSupply := circulatingSupply m |} w.

(** [processBurnEventData(burnEvent)]; [now] is read by the call of
    [calculateBurnRates] at its end. *)
Definition processBurnEventData (now : Z) (burnEvent : BurnEvent)
    (w : DeepBurnWatcher) : DeepBurnWatcher :=
  let m := metrics w in
  let unshifted := burnEvent :: burnEvents m in
  calculateBurnRates now
    (set_metrics
       {| currentSupply := Js.sub (currentSupply m) (amount burnEvent);
          totalBurned := Js.add (totalBurned m) (amount burnEvent);
          burnRate24h := burnRate24h m;
          lastBurnTx := txId burnEvent;
          lastBurnAmount := amount burnEvent;
          lastBurnTimestamp := timestamp burnEvent;
          treasuryBalance := treasuryBalance m;
          burnEvents :=
            if bool_decide (100 < length unshifted)
            then take 100 unshifted
            else unshifted;
          circulatingSupply := circulatingSupply m |} w).

(** The answers of the RPC client. *)
Record SuiEvent := {
  txDigest : string;                            (* event.id.txDigest *)
  parsedJson : option (gmap string Js.value);   (* None: null or undefined *)
  timestampMs : Js.value
}.

Inductive SuiParsedData :=
| MoveObject (fields : gmap string Js.value)    (* dataType 'moveObject' *)
| Package.                                      (* dataType 'package' *)

Record SuiObjectData := { content : option SuiParsedData }.
Record SuiObjectResponse := { data : option SuiObjectData }.
Record CoinStruct := { balance : string }.
Record CoinMetadata := { decimals : nat }.

(** [parsedJson?.k] *)
Definition field (parsedJson : option (gmap string Js.value)) (k : string) : Js.value :=
  match parsedJson with
  | Some o => Js.get o k
  | None => Js.Undefined
  end.

Section Methods.
Context {reader : Js.StringReader}.

(** The amount computed by [processBurnEvent] from [event.parsedJson]. *)
Definition extractAmount (w : DeepBurnWatcher)
    (parsedJson : option (gmap string Js.value)) : Js.number :=
  if Js.truthy (field parsedJson "amount") then
    Js.div (Js.ToNumber (field parsedJson "amount")) (Js.pow10 (DEEP_DECIMALS w))
  else if Js.truthy (field parsedJson "value") then
    Js.div (Js.ToNumber (field parsedJson "value")) (Js.pow10 (DEEP_DECIMALS w))
  else if Js.truthy (field parsedJson "burned_amount") then
    Js.div (Js.ToNumber (field parsedJson "burned_amount")) (Js.pow10 (DEEP_DECIMALS w))
  else Js.of_Z 0.

(** The [BurnEvent] built by [processBurnEvent(event, eventType)]. *)
Definition normalize (w : DeepBurnWatcher) (event : SuiEvent) (eventType : string)
  : BurnEvent :=
  {| txId := txDigest event;
     amount := extractAmount w (parsedJson event);
     timestamp := new_Date (Js.ToNumber (timestampMs event));
     eventType := eventType |}.

(** [processBurnEvent(event, eventType)] *)
Definition processBurnEvent (now : Z) (event : SuiEvent) (eventType : string)
    (w : DeepBurnWatcher) : DeepBurnWatcher :=
  processBurnEventData now (normalize w event eventType) w.

(** [getTotalSupply()]: the body of the [try] and the [catch] return the
    same expression. *)
Definition getTotalSupply (w : DeepBurnWatcher)
    (getCoinMetadata : Completion (option CoinMetadata)) : Js.number :=
  let body : Completion Js.number :=
    metadata ← getCoinMetadata;
    match metadata with
    | None => Throw "DEEP token metadata not found"
    | Some _ => Normal (Js.or (currentSupply (metrics w)) (Js.of_Z 1000000000))
    end in
  match body with
  | Normal supply => supply
  | Throw _ => Js.or (currentSupply (metrics w)) (Js.of_Z 1000000000)
  end.

(** [getTreasuryBalance()] *)
Definition getTreasuryBalance (w : DeepBurnWatcher)
    (getObject : Completion SuiObjectResponse) : Js.number :=
  let body : Completion Js.number :=
    treasuryObject ← getObject;
    match data treasuryObject ≫= content with
    | Some (MoveObject fields) =>
        Normal
          (if Js.truthy (Js.get fields "deep_supply") then
             Js.div (Js.ToNumber (Js.get fields "deep_supply")) (Js.pow10 (DEEP_DECIMALS w))
           else if Js.truthy (Js.get fields "balance") then
             Js.div (Js.ToNumber (Js.get fields "balance")) (Js.pow10 (DEEP_DECIMALS w))
           else if Js.truthy (Js.get fields "total_supply") then
             Js.div (Js.ToNumber (Js.get fields "total_supply")) (Js.pow10 (DEEP_DECIMALS w))
           else Js.of_Z 0)
    | _ => Throw "Invalid treasury data"
    end in
  match body with
  | Normal balance => balance
  | Throw _ => Js.of_Z 0
  end.

(** [getCirculatingSupply()] *)
Definition getCirculatingSupply (w : DeepBurnWatcher)
    (getAllCoins : Completion (list CoinStruct)) : Js.number :=
  let body : Completion Js.number :=
    coins ← getAllCoins;
    Normal
      (fold_left
         (λ sum coin,
            Js.add sum (Js.div (Js.ToNumber (Js.String (balance coin)))
                               (Js.pow10 (DEEP_DECIMALS w))))
         coins (Js.of_Z 0)) in
  match body with
  | Normal totalCirculating => totalCirculating
  | Throw _ => Js.of_Z 0
  end.

(** The three answers one refresh consumes. *)
Record RefreshAnswers := {
  coinMetadata : Completion (option CoinMetadata);
  treasuryObject : Completion SuiObjectResponse;
  allCoins : Completion (list CoinStruct)
}.

(** [fetchAllMetrics()].  None of the three getters throws, so the [catch]
    of this method has nothing to handle. *)
Definition fetchAllMetrics (now : Z) (answers : RefreshAnswers)
    (w : DeepBurnWatcher) : DeepBurnWatcher :=
  let supply := getTotalSupply w (coinMetadata answers) in
  let treasury := getTreasuryBalance w (treasuryObject answers) in
  let circulating := getCirculatingSupply w (allCoins answers) in
  let m := metrics w in
  calculateBurnRates now
    (set_metrics
       {| currentSupply := supply;
          totalBurned := totalBurned m;
          burnRate24h := burnRate24h m;
          lastBurnTx := lastBurnTx m;
          lastBurnAmount := lastBurnAmount m;
          lastBurnTimestamp := lastBurnTimestamp m;
          treasuryBalance := treasury;
          burnEvents := burnEvents m;
          circulatingSupply := circulating |} w).

(** *** The fallback poller

    The callback that [setupAlternativeMonitoring] hands to [setInterval].
    [lastTreasuryBalance] is the variable the closure captures; the three
    clock readings are those of [Date.now()] in the identifier, of
    [new Date()] and of [calculateBurnRates]. *)
Record Clock := { nowId : Z; nowDate : Z; nowRates : Z }.

Definition synthesizeBurn (lastTreasuryBalance currentTreasuryBalance : Js.number)
    (clock : Clock) : option BurnEvent :=
  let balanceChange := Js.sub lastTreasuryBalance currentTreasuryBalance in
  if Js.gt balanceChange (Js.of_Z 0) then
    Some {| txId := "treasury-" +:+ pretty (nowId clock);
            amount := balanceChange;
            timestamp := Js.of_Z (nowDate clock);
            eventType := "TreasuryBalanceDecrease" |}
  else None.

Definition pollCycle (clock : Clock) (getObject : Completion SuiObjectResponse)
    (lastTreasuryBalance : Js.number) (w : DeepBurnWatcher)
  : DeepBurnWatcher * Js.number :=
  let currentTreasuryBalance := getTreasuryBalance w getObject in
  let w' :=
    match synthesizeBurn lastTreasuryBalance currentTreasuryBalance clock with
    | Some burnEvent => processBurnEventData (nowRates clock) burnEvent w
    | None => w
    end in
  (w', currentTreasuryBalance).

(** *** The event loop

    What the watcher has registered with the runtime: its timers and the
    topics with an open subscription. *)
Inductive Timer :=
| RefreshInterval (ms : Z)
| BalancePoll (ms : Z) (lastTreasuryBalance : Js.number)
| Resubscribe (ms : Z).

Record Runtime := {
  watcher : DeepBurnWatcher;
  timers : list Timer;
  listeners : list string
}.

Definition Async (A : Type) : Type := Runtime → Completion A * Runtime.

#[local] Instance Async_ret : MRet Async := λ A a r, (Normal a, r).
#[local] Instance Async_bind : MBind Async := λ A B k c r,
  match c r with
  | (Normal a, r') => k a r'
  | (Throw e, r') => (Throw e, r')
  end.

Definition async_try_catch {A} (body : Async A) (handler : string → Async A) : Async A :=
  λ r, match body r with
       | (Normal a, r') => (Normal a, r')
       | (Throw e, r') => handler e r'
       end.

Fixpoint for_of {A} (l : list A) (body : A → Async ()) : Async () :=
  match l with
  | [] => mret ()
  | x :: l' => body x ;; for_of l' body
  end.

Definition getThis : Async DeepBurnWatcher := λ r, (Normal (watcher r), r).

Definition setThis (w : DeepBurnWatcher) : Async () := λ r,
  (Normal (), {| watcher := w; timers := timers r; listeners := listeners r |}).

Definition addTimer (t : Timer) : Async () := λ r,
  (Normal (), {| watcher := watcher r; timers := timers r ++ [t];
                 listeners := listeners r |}).

(** [await this.client.subscribeEvent({filter, onMessage})]: [answer] tells,
    per topic, whether the node accepts the subscription.  The unsubscribe
    function it resolves to is represented by the topic. *)
Definition subscribeEvent (answer : string → Completion ()) (eventType : string)
  : Async string := λ r,
  match answer eventType with
  | Normal _ =>
      (Normal eventType,
       {| watcher := watcher r; timers := timers r;
          listeners := listeners r ++ [eventType] |})
  | Throw e => (Throw e, r)
  end.

(** [setupAlternativeMonitoring()] *)
Definition setupAlternativeMonitoring : Async () :=
  w ← getThis;
  addTimer (BalancePoll 30000 (treasuryBalance (metrics w))).

(** The body of the [for] loop of [setupEventSubscription]: one topic, with
    its own [try]/[catch]. *)
Definition subscribeTopic (answer : string → Completion ()) (eventType : string)
  : Async () :=
  async_try_catch
    (unsubscribe' ← subscribeEvent answer eventType;
     w ← getThis;
     match unsubscribe w with
     | Some prevUnsubscribe =>
         setThis (set_unsubscribe (Some (prevUnsubscribe ++ [unsubscribe'])) w)
     | None => setThis (set_unsubscribe (Some [unsubscribe']) w)
     end)
    (λ error, mret ()).

(** [setupEventSubscription()] *)
Definition setupEventSubscription (answer : string → Completion ()) : Async () :=
  async_try_catch
    (for_of TREASURY_EVENTS (subscribeTopic answer) ;;
     w ← getThis;
     match unsubscribe w with
     | None => setupAlternativeMonitoring
     | Some _ => mret ()
     end)
    (λ error, addTimer (Resubscribe 10000)).

(** [initialize()] *)
Definition initialize (now : Z) (answers : RefreshAnswers)
    (answer : string → Completion ()) : Async () :=
  w ← getThis;
  setThis (fetchAllMetrics now answers w) ;;
  setupEventSubscription answer ;;
  w ← getThis;
  addTimer (RefreshInterval (refreshInterval w)).

(** [cleanup()]: calls [this.unsubscribe] when it is set. *)
Definition cleanup : Async () := λ r,
  match unsubscribe (watcher r) with
  | Some topics =>
      (Normal (),
       {| watcher := watcher r; timers := timers r;
          listeners := list_difference (listeners r) topics |})
  | None => (Normal (), r)
  end.

(** The process right after [new DeepBurnWatcher()]. *)
Definition boot : Runtime :=
  {| watcher := constructor; timers := []; listeners := [] |}.

(** One callback run by the event loop once [initialize] has returned:
    a message of an open subscription or a timer that fires, with the
    answers the callback receives.  A callback nothing is registered for
    does not run. *)
Inductive Callback :=
| OnMessage (eventType : string) (event : SuiEvent) (now : Z)
| RefreshFires (i : nat) (now : Z) (answers : RefreshAnswers)
| PollFires (i : nat) (clock : Clock) (getObject : Completion SuiObjectResponse)
| ResubscribeFires (i : nat) (answer : string → Completion ()).

Definition dispatch (r : Runtime) (c : Callback) : Runtime :=
  match c with
  | OnMessage eventType event now =>
      if bool_decide (eventType ∈ listeners r) then
        {| watcher := processBurnEvent now event eventType (watcher r);
           timers := timers r; listeners := listeners r |}
      else r
  | RefreshFires i now answers =>
      match timers r !! i with
      | Some (RefreshInterval _) =>
          {| watcher := fetchAllMetrics now answers (watcher r);
             timers := timers r; listeners := listeners r |}
      | _ => r
      end
  | PollFires i clock getObject =>
      match timers r !! i with
      | Some (BalancePoll ms lastTreasuryBalance) =>
          let '(w', current) := pollCycle clock getObject lastTreasuryBalance (watcher r) in
          {| watcher := w';
             timers := <[i := BalancePoll ms current]> (timers r);
             listeners := listeners r |}
      | _ => r
      end
  | ResubscribeFires i answer =>
      match timers r !! i with
      | Some (Resubscribe _) =>
          (setupEventSubscription answer
             {| watcher := watcher r; timers := delete i (timers r);
                listeners := listeners r |}).2
      | _ => r
      end
  end.

Definition run (r : Runtime) (cs : list Callback) : Runtime := foldl dispatch r cs.

End Methods.

End Watcher.

(** ** The watcher of [index.ts] (earlier, single-topic version)

    Only the methods that differ from the current version in what they do
    with a burn event or with a failed subscription are embedded. *)

Module IndexTs.

Definition DEEPBOOK_PACKAGE_ID : string := "0xdeeef0f175babe1a1b1a71f5f90a0d4a7726a5a5".
Definition DEEP_TOKEN_TYPE : string := DEEPBOOK_PACKAGE_ID +:+ "::deep::DEEP".
Definition DEEP_BURN_EVENT : string := DEEPBOOK_PACKAGE_ID +:+ "::burn::BurnEvent".

Record BurnEvent := {
  txId : string;
  amount : Js.number;
  timestamp : Watcher.Date
}.

Record DeepTokenMetrics := {
  currentSupply : Js.number;
  totalBurned : Js.number;
  burnRate24h : Js.number;
  lastBurnTx : string;
  lastBurnAmount : Js.number;
  lastBurnTimestamp : Watcher.Date;
  poolBalance : Js.number;
  burnEvents : list BurnEvent
}.

Record DeepBurnWatcher := {
  metrics : DeepTokenMetrics;
  refreshInterval : Z;
  unsubscribe : option string
}.

Definition constructor : DeepBurnWatcher :=
  {| metrics :=
       {| currentSupply := Js.of_Z 0;
          totalBurned := Js.of_Z 0;
          burnRate24h := Js.of_Z 0;
          lastBurnTx := "";
          lastBurnAmount := Js.of_Z 0;
          lastBurnTimestamp := Watcher.new_Date (Js.of_Z 0);
          poolBalance := Js.of_Z 0;
          burnEvents := [] |};
     refreshInterval := 15000;
     unsubscribe := None |}.

Definition in_last_24h (now : Z) (event : BurnEvent) : bool :=
  Js.lt (Js.sub (Js.of_Z now) (Watcher.getTime (timestamp event))) (Js.of_Z 86400000).

(** [calculateBurnRates()] *)
Definition calculateBurnRates (now : Z) (w : DeepBurnWatcher) : DeepBurnWatcher :=
  let m := metrics w in
  let burns24h := List.filter (in_last_24h now) (burnEvents m) in
  {| metrics :=
       {| currentSupply := currentSupply m;
          totalBurned := totalBurned m;
          burnRate24h :=
            fold_left (λ sum event, Js.add sum (amount event)) burns24h (Js.of_Z 0);
          lastBurnTx := lastBurnTx m;
          lastBurnAmount := lastBurnAmount m;
          lastBurnTimestamp := lastBurnTimestamp m;
          poolBalance := poolBalance m;
          burnEvents := burnEvents m |};
     refreshInterval := refreshInterval w;
     unsubscribe := unsubscribe w |}.

Section Methods.
Context {reader : Js.StringReader}.

(** [processBurnEvent(event)] *)
Definition processBurnEvent (now : Z) (event : Watcher.SuiEvent)
    (w : DeepBurnWatcher) : DeepBurnWatcher :=
  let parsedJson := Watcher.parsedJson event in
  let burnEvent :=
    {| txId := Watcher.txDigest event;
       amount :=
         if Js.truthy (Watcher.field parsedJson "amount")
         then Js.ToNumber (Watcher.field parsedJson "amount")
         else Js.of_Z 0;
       timestamp := Watcher.new_Date (Js.ToNumber (Watcher.timestampMs event)) |} in
  let m := metrics w in
  calculateBurnRates now
    {| metrics :=
         {| currentSupply := Js.sub (currentSupply m) (amount burnEvent);
            totalBurned := Js.add (totalBurned m) (amount burnEvent);
            burnRate24h := burnRate24h m;
            lastBurnTx := txId burnEvent;
            lastBurnAmount := amount burnEvent;
            lastBurnTimestamp := timestamp burnEvent;
            poolBalance := poolBalance m;
            burnEvents := burnEvent :: burnEvents m |};
       refreshInterval := refreshInterval w;
       unsubscribe := unsubscribe w |}.

End Methods.

(** The subscription and the pending [setTimeout] retries of the process. *)
Record Runtime := {
  watcher : DeepBurnWatcher;
  pendingRetries : list Z;
  listeners : list string
}.

(** [setupEventSubscription()] *)
Definition setupEventSubscription (answer : Completion ()) (r : Runtime) : Runtime :=
  match answer with
  | Normal _ =>
      {| watcher :=
           {| metrics := metrics (watcher r);
              refreshInterval := refreshInterval (watcher r);
              unsubscribe := Some DEEP_BURN_EVENT |};
         pendingRetries := pendingRetries r;
         listeners := listeners r ++ [DEEP_BURN_EVENT] |}
  | Throw _ =>
      {| watcher := watcher r;
         pendingRetries := pendingRetries r ++ [5000%Z];
         listeners := listeners r |}
  end.

(** The oldest pending retry fires and runs [setupEventSubscription] again. *)
Definition retryFires (answer : Completion ()) (r : Runtime) : Runtime :=
  match pendingRetries r with
  | _ :: rest =>
      setupEventSubscription answer
        {| watcher := watcher r; pendingRetries := rest; listeners := listeners r |}
  | [] => r
  end.

End IndexTs.

(** ** The queries and the refresh of [index.ts] *)

Module IndexTsQueries.
Import IndexTs.

(** The metadata of the coin as [getTotalSupply] reads it: [decimals], and
    the field [supply] the code looks for ([undefined] when the node sends
    none). *)
Record CoinMetadata := { decimals : nat; supply : Js.value }.

Section Methods.
Context {reader : Js.StringReader}.

(** [getTotalSupply()]; it has no [catch] of its own. *)
Definition getTotalSupply (getCoinMetadata : Completion (option CoinMetadata))
  : Completion Js.number :=
  metadata ← getCoinMetadata;
  match metadata with
  | None => Throw "DEEP token metadata not found"
  | Some metadata =>
      let supply' :=
        if Js.truthy (supply metadata) then supply metadata else Js.String "0" in
      match supply' with
      | Js.Undefined => Throw "Could not determine token supply"
      | _ => Normal (Js.div (Js.ToNumber supply') (Js.pow10 (decimals metadata)))
      end
  end.

(** [getPoolBalance()] *)
Definition getPoolBalance (getObject : Completion Watcher.SuiObjectResponse)
  : Js.number :=
  let body : Completion Js.number :=
    pool ← getObject;
    match Watcher.data pool ≫= Watcher.content with
    | Some (Watcher.MoveObject fields) =>
        Normal (if Js.truthy (Js.get fields "balance")
                then Js.ToNumber (Js.get fields "balance")
                else Js.of_Z 0)
    | _ => Throw "Invalid pool data"
    end in
  match body with
  | Normal balance => balance
  | Throw _ => Js.of_Z 0
  end.

(** [fetchAllMetrics()]: when [getTotalSupply] throws, [Promise.all]
    rejects and the [catch] leaves the metrics as they are. *)
Definition fetchAllMetrics (now : Z)
    (getCoinMetadata : Completion (option CoinMetadata))
    (getObject : Completion Watcher.SuiObjectResponse)
    (w : DeepBurnWatcher) : DeepBurnWatcher :=
  match getTotalSupply getCoinMetadata with
  | Normal supply =>
      let pool := getPoolBalance getObject in
      let m := metrics w in
      calculateBurnRates now
        {| metrics :=
             {| currentSupply := supply;
                totalBurned := totalBurned m;
                burnRate24h := burnRate24h m;
                lastBurnTx := lastBurnTx m;
                lastBurnAmount := lastBurnAmount m;
                lastBurnTimestamp := lastBurnTimestamp m;
                poolBalance := pool;
                burnEvents := burnEvents m |};
           refreshInterval := refreshInterval w;
           unsubscribe := unsubscribe w |}
  | Throw _ => w
  end.

End Methods.

End IndexTsQueries.

(** ** The timers of Node.js

    The delay a timer runs with: [setInterval] and [setTimeout] replace a
    delay below 1 ms or above 2147483647 ms by 1 ms. *)

Module Node.
Import Watcher.

Definition TIMEOUT_MAX : Z := 2147483647.

Definition timerDelay (after : Z) : Z :=
  if bool_decide (1 ≤ after ≤ TIMEOUT_MAX)%Z then after else 1%Z.

(** The delay a registered timer of the watcher runs with. *)
Definition period (t : Timer) : Z :=
  match t with
  | RefreshInterval ms => timerDelay ms
  | BalancePoll ms _ => timerDelay ms
  | Resubscribe ms => timerDelay ms
  end.

End Node.

(** ** The command line (current version)

    The [action] of the command, up to its call of [initialize].
    [parseInt] is the built-in: it yields an integer, or [NaN] ([None]). *)

Module Cli.
Import Watcher.

Definition set_refreshInterval (ms : Z) (w : DeepBurnWatcher) : DeepBurnWatcher :=
  {| metrics := metrics w;
     refreshInterval := ms;
     unsubscribe := unsubscribe w;
     DEEP_DECIMALS := DEEP_DECIMALS w |}.

(** The watcher the action builds from [options.refresh]. *)
Definition configure (parseInt : string → option Z) (refresh : string)
  : DeepBurnWatcher :=
  let watcher := constructor in
  if Js.truthy (Js.String refresh) then
    match parseInt refresh with
    | Some seconds =>
        let interval := (seconds * 1000)%Z in
        if bool_decide (5000 ≤ interval)%Z
        then set_refreshInterval interval watcher
        else watcher
    | None => watcher
    end
  else watcher.

(** The process when the action calls [watcher.initialize()]. *)
Definition launch (parseInt : string → option Z) (refresh : string) : Runtime :=
  {| watcher := configure parseInt refresh; timers := []; listeners := [] |}.

End Cli.

(** ** The display (current version)

    The text [displayMetrics] puts in the type column of the burns table. *)

Module Display.
Import Watcher.

(** The character [:]. *)
Definition colon : Ascii.ascii := Ascii.ascii_of_nat 58.

(** What follows the last ["::"] of [s], if [s] has one: the last element
    of [s.split('::')] when the split has more than one. *)
Fixpoint afterLastSeparator (s : string) : option string :=
  match s with
  | EmptyString => None
  | String.String c r =>
      match r with
      | String.String c' r' =>
          if Ascii.eqb c colon && Ascii.eqb c' colon
          then Some (default r' (afterLastSeparator r'))
          else afterLastSeparator r
      | EmptyString => None
      end
  end.

(** [s.split('::').pop()] *)
Definition lastSegment (s : string) : string := default s (afterLastSeparator s).

(** [event.eventType.split('::').pop() || event.eventType] *)
Definition shortType (eventType : string) : string :=
  if Js.truthy (Js.String (lastSegment eventType))
  then lastSegment eventType
  else eventType.

End Display.

(** * Properties *)

(** A closed, decidable statement proved by evaluating its decision. *)
Ltac evaluate := apply (bool_decide_unpack _); vm_compute; exact I.

(** ** Arithmetic of JavaScript numbers *)

Module JsFacts.

Lemma add_assoc (a b c : Js.number) :
  Js.add a (Js.add b c) = Js.add (Js.add a b) c.
Proof. destruct a, b, c; simpl; try done. by rewrite Qcplus_assoc. Qed.

Lemma add_comm (a b : Js.number) : Js.add a b = Js.add b a.
Proof. destruct a, b; simpl; try done. by rewrite Qcplus_comm. Qed.

Lemma add_0_l (a : Js.number) : Js.add (Js.of_Z 0) a = a.
Proof.
  destruct a as [|q]; simpl; [done|].
  by rewrite Z2Qc_inj_0, Qcplus_0_l.
Qed.

Lemma add_0_r (a : Js.number) : Js.add a (Js.of_Z 0) = a.
Proof. by rewrite add_comm, add_0_l. Qed.

Lemma le_trans (a b c : Js.number) : Js.le a b → Js.le b c → Js.le a c.
Proof. destruct a, b, c; simpl; try done. apply Qcle_trans. Qed.

(** Adding a non-negative number to a finite one does not decrease it. *)
Lemma le_add_nonneg (x a : Js.number) :
  Js.le (Js.of_Z 0) x → Js.le (Js.of_Z 0) a → Js.le x (Js.add x a).
Proof.
  destruct x as [|x], a as [|a]; simpl; try done.
  rewrite Z2Qc_inj_0. intros _ Ha.
  rewrite <-(Qcplus_0_r x) at 1. by apply Qcplus_le_mono_l.
Qed.

Lemma add_nonneg (x a : Js.number) :
  Js.le (Js.of_Z 0) x → Js.le (Js.of_Z 0) a → Js.le (Js.of_Z 0) (Js.add x a).
Proof. intros Hx Ha. eapply le_trans; [exact Hx|]. by apply le_add_nonneg. Qed.

Lemma lt_of_Z (n m : Z) : Js.lt (Js.of_Z n) (Js.of_Z m) = bool_decide (n < m)%Z.
Proof. simpl. apply bool_decide_ext. symmetry. apply Z2Qc_inj_lt. Qed.

Lemma sub_of_Z (n m : Z) : Js.sub (Js.of_Z n) (Js.of_Z m) = Js.of_Z (n - m).
Proof. simpl. unfold Js.of_Z. by rewrite Z2Qc_inj_sub. Qed.

Lemma gt_0_fin (q : Qc) : Js.gt (Js.Fin q) (Js.of_Z 0) = bool_decide (0 < q)%Qc.
Proof. unfold Js.gt. simpl. by rewrite Z2Qc_inj_0. Qed.

Lemma pow10_nonzero (d : nat) : Qc_of_Z (10 ^ Z.of_nat d) ≠ 0%Qc.
Proof.
  rewrite <-Z2Qc_inj_0. intros Heq%Z2Qc_inj.
  assert (0 < 10 ^ Z.of_nat d)%Z by (apply Z.pow_pos_nonneg; lia). lia.
Qed.

(** Dividing a finite number by a power of ten gives a finite number. *)
Lemma div_pow10_fin (q : Qc) (d : nat) :
  Js.div (Js.Fin q) (Js.pow10 d) = Js.Fin (q / Qc_of_Z (10 ^ Z.of_nat d))%Qc.
Proof.
  unfold Js.pow10, Js.of_Z. simpl. case_decide as Hz; [|done].
  by destruct (pow10_nonzero d).
Qed.

End JsFacts.

(** ** The metrics aggregator *)

Module Aggregator.
Import Watcher.

(** The burn events handed to [processBurnEventData], oldest first, each
    with the clock reading of its call. *)
Definition handle (w : DeepBurnWatcher) (arrivals : list (Z * BurnEvent))
  : DeepBurnWatcher :=
  foldl (λ w d, processBurnEventData d.1 d.2 w) w arrivals.

Lemma totalBurned_processBurnEventData now e w :
  totalBurned (metrics (processBurnEventData now e w))
  = Js.add (totalBurned (metrics w)) (amount e).
Proof. done. Qed.

Lemma handle_snoc w arrivals d :
  handle w (arrivals ++ [d]) = processBurnEventData d.1 d.2 (handle w arrivals).
Proof. unfold handle. by rewrite foldl_snoc. Qed.

Lemma totalBurned_handle w arrivals :
  totalBurned (metrics (handle w arrivals))
  = fold_left (λ sum event, Js.add sum (amount event)) arrivals.*2
      (totalBurned (metrics w)).
Proof.
  induction arrivals as [|d arrivals IH] using rev_ind; [done|].
  rewrite handle_snoc, totalBurned_processBurnEventData, IH.
  by rewrite fmap_snoc, fold_left_app.
Qed.

(** The sum of the amounts of a list of events. *)
Definition sum_amounts (events : list BurnEvent) : Js.number :=
  foldr (λ event s, Js.add (amount event) s) (Js.of_Z 0) events.

Definition nonneg_amount (event : BurnEvent) : Prop :=
  Js.le (Js.of_Z 0) (amount event).

Lemma sum_amounts_cons (e : BurnEvent) (events : list BurnEvent) :
  sum_amounts (e :: events) = Js.add (amount e) (sum_amounts events).
Proof. done. Qed.

Lemma fold_left_add_sum (events : list BurnEvent) (acc : Js.number) :
  fold_left (λ sum event, Js.add sum (amount event)) events acc
  = Js.add acc (sum_amounts events).
Proof.
  revert acc. induction events as [|e events IH]; intros acc.
  - symmetry. apply JsFacts.add_0_r.
  - rewrite sum_amounts_cons. cbn [fold_left]. rewrite IH.
    symmetry. apply JsFacts.add_assoc.
Qed.

(** *** The running total *)

(** The amounts of a list of events added one after the other, from 0 and
    in the order of the list: the value that [+=] builds up. *)
Definition accumulate (events : list BurnEvent) : Js.number :=
  fold_left (λ sum event, Js.add sum (amount event)) events (Js.of_Z 0).

Lemma fold_left_add_nonneg (events : list BurnEvent) (acc : Js.number) :
  Forall nonneg_amount events → Js.le (Js.of_Z 0) acc →
  Js.le (Js.of_Z 0) (fold_left (λ sum event, Js.add sum (amount event)) events acc).
Proof.
  intros Hnn. revert acc. induction Hnn as [|e events He _ IH]; intros acc Hacc.
  - exact Hacc.
  - cbn [fold_left]. apply IH. by apply JsFacts.add_nonneg.
Qed.

(** C1 (as amended).  From process start, after any sequence of burn
    events has been handed to [processBurnEventData], [totalBurned] is the
    sum of their amounts, added in the order of arrival; and as long as the
    amounts are non-negative numbers, handling one more event does not
    decrease it.  The handler itself accepts any amount. *)
Theorem totalBurned_cumulative_sum (arrivals : list (Z * BurnEvent)) (d : Z * BurnEvent) :
  totalBurned (metrics (handle constructor arrivals)) = accumulate arrivals.*2
  ∧ (Forall nonneg_amount arrivals.*2 → nonneg_amount d.2 →
     Js.le (totalBurned (metrics (handle constructor arrivals)))
           (totalBurned (metrics (handle constructor (arrivals ++ [d]))))).
Proof.
  assert (totalBurned (metrics (handle constructor arrivals))
          = accumulate arrivals.*2) as Hsum.
  { apply totalBurned_handle. }
  split; [exact Hsum|].
  intros Hpast Hd.
  rewrite handle_snoc, totalBurned_processBurnEventData, Hsum.
  apply JsFacts.le_add_nonneg; [|exact Hd].
  apply fold_left_add_nonneg; [exact Hpast|]. simpl. apply Qcle_refl.
Qed.

(** A burn event with integer amount and timestamp, for the closed examples. *)
Definition sample (tx : string) (a t : Z) : BurnEvent :=
  {| txId := tx; amount := Js.of_Z a; timestamp := Js.of_Z t;
     eventType := "TreasuryBalanceDecrease" |}.

Lemma nonneg_amount_sample tx a t : (0 ≤ a)%Z → nonneg_amount (sample tx a t).
Proof.
  intros Ha. unfold nonneg_amount, sample. cbn [amount]. unfold Js.le, Js.of_Z.
  by apply (proj1 (Z2Qc_inj_le 0 a)).
Qed.

Lemma totalBurned_cumulative_sum_witness :
  Forall nonneg_amount [(5%Z, sample "a" 3 1); (9%Z, sample "b" 0 2)].*2
  ∧ nonneg_amount (11%Z, sample "c" 7 4).2
  ∧ Js.le
      (totalBurned (metrics (handle constructor
         [(5%Z, sample "a" 3 1); (9%Z, sample "b" 0 2)])))
      (totalBurned (metrics (handle constructor
         ([(5%Z, sample "a" 3 1); (9%Z, sample "b" 0 2)] ++ [(11%Z, sample "c" 7 4)])))).
Proof.
  assert (Forall nonneg_amount [(5%Z, sample "a" 3 1); (9%Z, sample "b" 0 2)].*2) as Hpast.
  { repeat constructor; by apply nonneg_amount_sample. }
  assert (nonneg_amount (11%Z, sample "c" 7 4).2) as Hd.
  { by apply nonneg_amount_sample. }
  split; [exact Hpast|]. split; [exact Hd|].
  exact (proj2 (totalBurned_cumulative_sum _ _) Hpast Hd).
Defined.

(** A message whose payload holds a negative amount, as a number. *)
Definition refund : SuiEvent :=
  {| txDigest := "9xQ";
     parsedJson := Some {[ "amount" := Js.Number (Js.of_Z (-5000000)) ]};
     timestampMs := Js.String "1700000000000" |}.

(** The claim as worded fails on an event with a negative amount: the
    normalizer builds one from the payload [{amount: -5000000}], the
    handler accepts it, and [totalBurned] goes from 10 down to 5. *)
Lemma negative_amount_counterexample :
  amount (normalize (reader := DecimalReader.reader) constructor refund "topic")
  = Js.of_Z (-5)
  ∧ totalBurned (metrics (handle constructor [(0%Z, sample "a" 10 0)])) = Js.of_Z 10
  ∧ totalBurned (metrics (handle constructor
      [ (0%Z, sample "a" 10 0);
        (1%Z, normalize (reader := DecimalReader.reader) constructor refund "topic") ]))
    = Js.of_Z 5
  ∧ Js.lt
      (totalBurned (metrics (handle constructor
         [ (0%Z, sample "a" 10 0);
           (1%Z, normalize (reader := DecimalReader.reader) constructor refund "topic") ])))
      (totalBurned (metrics (handle constructor [(0%Z, sample "a" 10 0)])))
    = true.
Proof.
  repeat split; evaluate.
Qed.

(** *** The bounded history *)

Lemma burnEvents_processBurnEventData now e w :
  burnEvents (metrics (processBurnEventData now e w))
  = take 100 (e :: burnEvents (metrics w)).
Proof.
  change (burnEvents (metrics (processBurnEventData now e w)))
    with (if bool_decide (100 < length (e :: burnEvents (metrics w)))
          then take 100 (e :: burnEvents (metrics w))
          else e :: burnEvents (metrics w)).
  case_bool_decide as Hlen; [done|].
  symmetry. apply take_ge. lia.
Qed.

Lemma take_cons_take {A} (n : nat) (x : A) (l : list A) :
  take (S n) (x :: take (S n) l) = take (S n) (x :: l).
Proof. cbn [take]. f_equal. rewrite take_take. f_equal. lia. Qed.

Lemma burnEvents_handle arrivals :
  burnEvents (metrics (handle constructor arrivals))
  = take 100 (reverse arrivals.*2).
Proof.
  induction arrivals as [|d arrivals IH] using rev_ind; [done|].
  rewrite handle_snoc, burnEvents_processBurnEventData, IH.
  rewrite fmap_snoc, reverse_snoc. apply take_cons_take.
Qed.

(** C5.  The history never holds more than 100 events: after any sequence
    of arrivals it is the (at most) 100 newest events, newest first; and
    an event that arrives when the history holds 100 entries evicts the
    oldest one and is put in front of all the others. *)
Theorem burnEvents_bounded (arrivals : list (Z * BurnEvent))
    (now : Z) (e : BurnEvent) (w : DeepBurnWatcher) :
  length (burnEvents (metrics (handle constructor arrivals))) ≤ 100
  ∧ burnEvents (metrics (handle constructor arrivals)) = take 100 (reverse arrivals.*2)
  ∧ (length (burnEvents (metrics w)) = 100 →
     ∃ kept oldest,
       burnEvents (metrics w) = kept ++ [oldest]
       ∧ burnEvents (metrics (processBurnEventData now e w)) = e :: kept).
Proof.
  split; [|split].
  - rewrite burnEvents_handle, length_take. lia.
  - apply burnEvents_handle.
  - intros Hfull.
    destruct (drop 99 (burnEvents (metrics w))) as [|oldest rest] eqn:Hdrop.
    { apply (f_equal length) in Hdrop. rewrite length_drop, Hfull in Hdrop.
      simpl in Hdrop. lia. }
    assert (rest = []) as ->.
    { apply (f_equal length) in Hdrop. rewrite length_drop, Hfull in Hdrop.
      simpl in Hdrop. apply nil_length_inv. lia. }
    exists (take 99 (burnEvents (metrics w))), oldest. split.
    + by rewrite <-Hdrop, take_drop.
    + by rewrite burnEvents_processBurnEventData.
Qed.

Lemma burnEvents_bounded_witness :
  length (burnEvents (metrics
    (handle constructor (replicate 100 (0%Z, sample "old" 1 0))))) = 100
  ∧ ∃ kept oldest,
      burnEvents (metrics (handle constructor (replicate 100 (0%Z, sample "old" 1 0))))
      = kept ++ [oldest]
      ∧ burnEvents (metrics
          (processBurnEventData 7 (sample "new" 2 7)
             (handle constructor (replicate 100 (0%Z, sample "old" 1 0)))))
        = sample "new" 2 7 :: kept.
Proof.
  assert (length (burnEvents (metrics
    (handle constructor (replicate 100 (0%Z, sample "old" 1 0))))) = 100) as Hfull.
  { rewrite burnEvents_handle, length_take, length_reverse, length_fmap, length_replicate.
    reflexivity. }
  split; [exact Hfull|].
  exact (proj2 (proj2 (burnEvents_bounded [] 7 (sample "new" 2 7) _)) Hfull).
Defined.

(** *** The 24-hour window *)

(** The event was observed less than 24 hours before [now]: its timestamp
    is a valid date later than [now - 86400000] ms. *)
Definition observed_within_24h (now : Z) (event : BurnEvent) : Prop :=
  ∃ t : Qc, timestamp event = Js.Fin t ∧ (Qc_of_Z (now - 86400000) < t)%Qc.

#[global] Instance observed_within_24h_dec now event :
  Decision (observed_within_24h now event).
Proof.
  unfold observed_within_24h. destruct (timestamp event) as [|t].
  - right. by intros (t & ? & _).
  - destruct (decide (Qc_of_Z (now - 86400000) < t)%Qc) as [Hlt|Hge].
    + left. by exists t.
    + right. intros (t' & Heq & Hlt). by simplify_eq.
Defined.

Lemma Qc_window (a d t : Qc) : (a - t < d)%Qc ↔ (a - d < t)%Qc.
Proof.
  rewrite (Qcplus_lt_mono_r (a - t) d t), (Qcplus_lt_mono_r (a - d) t d).
  replace (a - t + t)%Qc with a by ring.
  replace (a - d + d)%Qc with a by ring.
  by rewrite (Qcplus_comm d t).
Qed.

Lemma in_last_24h_true now event :
  in_last_24h now event = true ↔ observed_within_24h now event.
Proof.
  unfold in_last_24h, observed_within_24h, getTime.
  destruct (timestamp event) as [|t]; simpl.
  - split; [done | by intros (t & ? & _)].
  - rewrite bool_decide_eq_true, Qc_window, <-Z2Qc_inj_sub. split.
    + intros Hlt. by exists t.
    + intros (t' & Heq & Hlt). by simplify_eq.
Qed.

Lemma in_last_24h_spec now event :
  in_last_24h now event = bool_decide (observed_within_24h now event).
Proof.
  destruct (in_last_24h now event) eqn:Hcode; symmetry.
  - apply bool_decide_eq_true_2. by apply in_last_24h_true.
  - apply bool_decide_eq_false_2. rewrite <-in_last_24h_true. congruence.
Qed.

Lemma filter_in_last_24h now (events : list BurnEvent) :
  List.filter (in_last_24h now) events = filter (observed_within_24h now) events.
Proof.
  induction events as [|e events IH]; [done|].
  cbn [List.filter]. rewrite filter_cons, in_last_24h_spec, IH.
  by case_bool_decide; case_decide.
Qed.

Lemma burnRate24h_calculateBurnRates now w :
  burnRate24h (metrics (calculateBurnRates now w))
  = sum_amounts (filter (observed_within_24h now) (burnEvents (metrics w))).
Proof.
  change (burnRate24h (metrics (calculateBurnRates now w)))
    with (fold_left (λ sum event, Js.add sum (amount event))
            (List.filter (in_last_24h now) (burnEvents (metrics w))) (Js.of_Z 0)).
  by rewrite fold_left_add_sum, JsFacts.add_0_l, filter_in_last_24h.
Qed.

Lemma in_last_24h_sample now tx a (age : Z) :
  in_last_24h now (sample tx a (now - age)) = bool_decide (age < 86400000)%Z.
Proof.
  unfold in_last_24h, sample, getTime. cbn [timestamp].
  rewrite JsFacts.sub_of_Z, JsFacts.lt_of_Z. apply bool_decide_ext. lia.
Qed.

(** C4.  After a burn event has been processed at time [now],
    [burnRate24h] is the sum of the amounts of exactly the retained events
    observed less than 24 hours before [now]; with events observed 25 hours
    ago, 23 hours ago and now in the history, the sum is that of the last
    two. *)
Theorem burnRate24h_window (now : Z) (e : BurnEvent) (w : DeepBurnWatcher)
    (n1 n2 a25 a23 a0 : Z) :
  burnRate24h (metrics (processBurnEventData now e w))
  = sum_amounts (filter (observed_within_24h now)
                   (burnEvents (metrics (processBurnEventData now e w))))
  ∧ burnRate24h (metrics (handle constructor
      [ (n1, sample "25h" a25 (now - 90000000));
        (n2, sample "23h" a23 (now - 82800000));
        (now, sample "now" a0 now) ]))
    = Js.add (Js.of_Z a0) (Js.of_Z a23).
Proof.
  split.
  - change (processBurnEventData now e w) with
      (calculateBurnRates now
         (set_metrics
            {| currentSupply := Js.sub (currentSupply (metrics w)) (amount e);
               totalBurned := Js.add (totalBurned (metrics w)) (amount e);
               burnRate24h := burnRate24h (metrics w);
               lastBurnTx := txId e;
               lastBurnAmount := amount e;
               lastBurnTimestamp := timestamp e;
               treasuryBalance := treasuryBalance (metrics w);
               burnEvents :=
                 if bool_decide (100 < length (e :: burnEvents (metrics w)))
                 then take 100 (e :: burnEvents (metrics w))
                 else e :: burnEvents (metrics w);
               circulatingSupply := circulatingSupply (metrics w) |} w)).
    by rewrite burnRate24h_calculateBurnRates.
  - rewrite <-(Z.sub_0_r now) at 4.
    change (burnRate24h _) with
      (fold_left (λ sum event, Js.add sum (amount event))
         (List.filter (in_last_24h now)
            [ sample "now" a0 (now - 0); sample "23h" a23 (now - 82800000);
              sample "25h" a25 (now - 90000000) ]) (Js.of_Z 0)).
    cbn [List.filter]. rewrite !in_last_24h_sample.
    rewrite !bool_decide_eq_true_2 by lia.
    rewrite bool_decide_eq_false_2 by lia.
    cbn [fold_left sample amount]. by rewrite JsFacts.add_0_l.
Qed.

End Aggregator.

(** ** The event normalizer *)

Module Normalizer.
Import Watcher.

(** The field names tried by [processBurnEvent], in order. *)
Definition candidates : list string := ["amount"; "value"; "burned_amount"].

(** The first candidate the payload has a key for, whatever its value. *)
Definition first_present (parsedJson : option (gmap string Js.value)) : option string :=
  List.find (λ k, bool_decide (is_Some (parsedJson ≫= (.!! k)))) candidates.

(** The first candidate whose value passes the test of the [if]. *)
Definition first_truthy (parsedJson : option (gmap string Js.value)) : option string :=
  List.find (λ k, Js.truthy (field parsedJson k)) candidates.

Section Normalizer.
Context {reader : Js.StringReader}.

(** The amount as the specification words it: the first candidate present,
    divided by [10^d]; [0] when none is present. *)
Definition amount_of_first_present (w : DeepBurnWatcher)
    (parsedJson : option (gmap string Js.value)) : Js.number :=
  match first_present parsedJson with
  | Some k => Js.div (Js.ToNumber (field parsedJson k)) (Js.pow10 (DEEP_DECIMALS w))
  | None => Js.of_Z 0
  end.

Definition amount_of_first_truthy (w : DeepBurnWatcher)
    (parsedJson : option (gmap string Js.value)) : Js.number :=
  match first_truthy parsedJson with
  | Some k => Js.div (Js.ToNumber (field parsedJson k)) (Js.pow10 (DEEP_DECIMALS w))
  | None => Js.of_Z 0
  end.

Lemma extractAmount_first_truthy w parsedJson :
  extractAmount w parsedJson = amount_of_first_truthy w parsedJson.
Proof.
  unfold extractAmount, amount_of_first_truthy, first_truthy, candidates.
  cbn [List.find].
  destruct (Js.truthy (field parsedJson "amount")); [done|].
  destruct (Js.truthy (field parsedJson "value")); [done|].
  by destruct (Js.truthy (field parsedJson "burned_amount")).
Qed.

Lemma ToNumber_decimal (n : N) (s : string) :
  s = pretty n → Js.ToNumber (Js.String s) = Js.of_Z (Z.of_N n).
Proof. intros ->. apply Js.StringToNumber_pretty. Qed.

Lemma div_of_Z_pow10_6 (n : Z) :
  Js.div (Js.of_Z n) (Js.pow10 6) = Js.Fin (Qc_of_Z n / Qc_of_Z 1000000)%Qc.
Proof. unfold Js.of_Z at 1. by rewrite JsFacts.div_pow10_fin. Qed.

(** C2 (as amended).  For every payload and every configured number of
    decimals, the amount is read from the first of [amount], [value],
    [burned_amount] whose value is truthy and divided by [10^d]; when none
    is truthy the event is still built, with amount 0.  With [d = 6],
    [{amount: "500"}] gives 0.0005, [{value: "1000000"}] gives 1 and the
    empty payload gives an event of amount 0. *)
Theorem normalizer_first_truthy (w : DeepBurnWatcher) (event : SuiEvent)
    (eventType : string) (now : Z) :
  amount (normalize w event eventType) = amount_of_first_truthy w (parsedJson event)
  ∧ (first_truthy (parsedJson event) = None →
     amount (normalize w event eventType) = Js.of_Z 0
     ∧ burnEvents (metrics (processBurnEvent now event eventType w))
       = take 100 (normalize w event eventType :: burnEvents (metrics w)))
  ∧ extractAmount constructor (Some {[ "amount" := Js.String "500" ]})
    = Js.Fin (Qc_of_Z 5 / Qc_of_Z 10000)%Qc
  ∧ extractAmount constructor (Some {[ "value" := Js.String "1000000" ]})
    = Js.of_Z 1
  ∧ amount (normalize constructor
              {| txDigest := txDigest event; parsedJson := Some ∅;
                 timestampMs := timestampMs event |} eventType)
    = Js.of_Z 0.
Proof.
  split; [|split; [|split; [|split]]].
  - apply extractAmount_first_truthy.
  - intros Hnone. split.
    + cbn [normalize amount].
      rewrite extractAmount_first_truthy. unfold amount_of_first_truthy.
      by rewrite Hnone.
    + apply Aggregator.burnEvents_processBurnEventData.
  - rewrite extractAmount_first_truthy.
    change (amount_of_first_truthy constructor (Some {[ "amount" := Js.String "500" ]}))
      with (Js.div (Js.ToNumber (Js.String "500")) (Js.pow10 6)).
    rewrite (ToNumber_decimal 500) by done.
    rewrite div_of_Z_pow10_6. f_equal. by apply Qc_is_canon.
  - rewrite extractAmount_first_truthy.
    change (amount_of_first_truthy constructor (Some {[ "value" := Js.String "1000000" ]}))
      with (Js.div (Js.ToNumber (Js.String "1000000")) (Js.pow10 6)).
    rewrite (ToNumber_decimal 1000000) by done.
    rewrite div_of_Z_pow10_6. unfold Js.of_Z. f_equal. by apply Qc_is_canon.
  - done.
Qed.

(** A payload whose first truthy candidate is a decimal numeral, as the
    ledger encodes a [u64], gives an event with a non-negative amount. *)
Lemma normalize_decimal_nonneg w event eventType k (n : N) :
  first_truthy (parsedJson event) = Some k →
  field (parsedJson event) k = Js.String (pretty n) →
  Aggregator.nonneg_amount (normalize w event eventType).
Proof.
  intros Hk Hn. unfold Aggregator.nonneg_amount. cbn [normalize amount].
  rewrite extractAmount_first_truthy. unfold amount_of_first_truthy.
  rewrite Hk, Hn, (ToNumber_decimal n) by done.
  unfold Js.of_Z at 2. rewrite JsFacts.div_pow10_fin. unfold Js.le, Js.of_Z.
  rewrite Z2Qc_inj_0. apply Qcmult_nonneg_nonneg.
  - rewrite <-Z2Qc_inj_0. apply (proj1 (Z2Qc_inj_le _ _)). lia.
  - apply Qclt_le_weak, Qcinv_pos. rewrite <-Z2Qc_inj_0.
    apply (proj1 (Z2Qc_inj_lt _ _)). apply Z.pow_pos_nonneg; lia.
Qed.

(** X24.  Where the wording "first candidate present" and the test of the
    code agree: for a payload in which every candidate that is present is
    truthy, the amount is that of the first candidate present. *)
Lemma first_present_agrees w parsedJson :
  (∀ k, k ∈ candidates → is_Some (parsedJson ≫= (.!! k)) →
        Js.truthy (field parsedJson k) = true) →
  extractAmount w parsedJson = amount_of_first_present w parsedJson.
Proof.
  intros Hall. rewrite extractAmount_first_truthy.
  unfold amount_of_first_truthy, amount_of_first_present, first_truthy, first_present.
  assert (∀ k, k ∈ candidates →
            Js.truthy (field parsedJson k)
            = bool_decide (is_Some (parsedJson ≫= (.!! k)))) as Hsame.
  { intros k Hk. case_bool_decide as Hp; [by apply Hall|].
    destruct parsedJson as [o|]; [|done]. simpl in *. unfold Js.get.
    destruct (o !! k) eqn:Hok; [|done]. destruct Hp. by eexists. }
  unfold candidates in *. cbn [List.find].
  rewrite !Hsame by set_solver. done.
Qed.

End Normalizer.

Lemma normalizer_first_truthy_witness :
  first_truthy (Some {[ "memo" := Js.String "x"; "amount" := Js.Number (Js.of_Z 0) ]}) = None
  ∧ amount (normalize (reader := DecimalReader.reader) constructor
              {| txDigest := "9xQ";
                 parsedJson :=
                   Some {[ "memo" := Js.String "x"; "amount" := Js.Number (Js.of_Z 0) ]};
                 timestampMs := Js.String "1700000000000" |} "topic")
    = Js.of_Z 0.
Proof.
  assert (first_truthy
            (Some {[ "memo" := Js.String "x"; "amount" := Js.Number (Js.of_Z 0) ]}) = None)
    as Hnone by (vm_compute; reflexivity).
  split; [exact Hnone|].
  exact (proj1 (proj1 (proj2 (normalizer_first_truthy (reader := DecimalReader.reader)
    constructor
    {| txDigest := "9xQ";
       parsedJson := Some {[ "memo" := Js.String "x"; "amount" := Js.Number (Js.of_Z 0) ]};
       timestampMs := Js.String "1700000000000" |} "topic" 0)) Hnone)).
Defined.

(** The claim as worded fails on a payload whose [amount] is the number 0
    and whose [value] is "1000000": [amount] is present, so the wording
    gives 0, and the code gives 1. *)
Lemma first_present_counterexample :
  amount_of_first_present (reader := DecimalReader.reader) constructor
    (Some {[ "amount" := Js.Number (Js.of_Z 0); "value" := Js.String "1000000" ]})
  = Js.of_Z 0
  ∧ extractAmount (reader := DecimalReader.reader) constructor
      (Some {[ "amount" := Js.Number (Js.of_Z 0); "value" := Js.String "1000000" ]})
    = Js.of_Z 1.
Proof.
  split; evaluate.
Qed.

End Normalizer.

(** ** The periodic refresh *)

Module Refresh.
Import Watcher.

(** Answers of a node that rejects the three queries. *)
Definition unreachable : RefreshAnswers :=
  {| coinMetadata := Throw "fetch failed";
     treasuryObject := Throw "fetch failed";
     allCoins := Throw "fetch failed" |}.

(** Answers of a node whose treasury object holds [balance] raw units and
    that lists one coin of [coin] raw units. *)
Definition healthy (balance coin : string) : RefreshAnswers :=
  {| coinMetadata := Normal (Some {| decimals := 6 |});
     treasuryObject :=
       Normal {| data := Some {| content :=
         Some (MoveObject {[ "balance" := Js.String balance ]}) |} |};
     allCoins := Normal [ {| balance := coin |} ] |}.

Section Refresh.
Context {reader : Js.StringReader}.

Lemma getTotalSupply_or w answer :
  getTotalSupply w answer = Js.or (currentSupply (metrics w)) (Js.of_Z 1000000000).
Proof. by destruct answer as [[?|]|?]. Qed.

(** C10 (as amended).  Whatever the metadata fetch answers (metadata, no
    metadata, or a rejection), [getTotalSupply] returns the snapshot's
    [currentSupply] when that is a non-zero number, and 1,000,000,000 when
    it is zero or [NaN]; the answer of the ledger does not enter the
    result, and the first refresh of a new watcher seeds [currentSupply]
    with the constant. *)
Theorem getTotalSupply_session_estimate (w : DeepBurnWatcher)
    (answer answer' : Completion (option CoinMetadata))
    (now : Z) (answers : RefreshAnswers) :
  (∀ q : Qc, currentSupply (metrics w) = Js.Fin q → q ≠ 0%Qc →
     getTotalSupply w answer = Js.Fin q)
  ∧ (currentSupply (metrics w) = Js.of_Z 0 →
     getTotalSupply w answer = Js.of_Z 1000000000)
  ∧ (currentSupply (metrics w) = Js.NaN →
     getTotalSupply w answer = Js.of_Z 1000000000)
  ∧ getTotalSupply w answer = getTotalSupply w answer'
  ∧ currentSupply (metrics (fetchAllMetrics now answers constructor))
    = Js.of_Z 1000000000.
Proof.
  split; [|split; [|split; [|split]]].
  - intros q Hq Hnz. rewrite getTotalSupply_or, Hq. unfold Js.or, Js.truthy_number.
    by rewrite bool_decide_eq_true_2.
  - intros Hz. rewrite getTotalSupply_or, Hz. unfold Js.or, Js.truthy_number, Js.of_Z.
    rewrite bool_decide_eq_false_2; [done|].
    intros Hne. apply Hne. apply Z2Qc_inj_0.
  - intros Hnan. by rewrite getTotalSupply_or, Hnan.
  - by rewrite !getTotalSupply_or.
  - change (currentSupply (metrics (fetchAllMetrics now answers constructor)))
      with (getTotalSupply constructor (coinMetadata answers)).
    rewrite getTotalSupply_or. unfold Js.or, Js.truthy_number. cbn [constructor metrics currentSupply].
    unfold Js.of_Z at 1. rewrite bool_decide_eq_false_2; [done|].
    intros Hne. apply Hne. apply Z2Qc_inj_0.
Qed.

(** C3 (as amended).  A refresh overwrites the three absolute fields with
    the results of the three getters, leaves [totalBurned], the history and
    the last-burn fields as they were, and recomputes [burnRate24h] over
    the history at the time of the refresh.  Processing a burn event leaves
    [treasuryBalance] and [circulatingSupply] as they were and subtracts
    the amount of the event from [currentSupply]. *)
Theorem refresh_and_burn_frames (now : Z) (answers : RefreshAnswers)
    (e : BurnEvent) (w : DeepBurnWatcher) :
  (currentSupply (metrics (fetchAllMetrics now answers w))
     = getTotalSupply w (coinMetadata answers)
   ∧ treasuryBalance (metrics (fetchAllMetrics now answers w))
     = getTreasuryBalance w (treasuryObject answers)
   ∧ circulatingSupply (metrics (fetchAllMetrics now answers w))
     = getCirculatingSupply w (allCoins answers))
  ∧ (totalBurned (metrics (fetchAllMetrics now answers w)) = totalBurned (metrics w)
     ∧ burnEvents (metrics (fetchAllMetrics now answers w)) = burnEvents (metrics w)
     ∧ lastBurnTx (metrics (fetchAllMetrics now answers w)) = lastBurnTx (metrics w)
     ∧ lastBurnAmount (metrics (fetchAllMetrics now answers w))
       = lastBurnAmount (metrics w)
     ∧ lastBurnTimestamp (metrics (fetchAllMetrics now answers w))
       = lastBurnTimestamp (metrics w))
  ∧ burnRate24h (metrics (fetchAllMetrics now answers w))
    = Aggregator.sum_amounts
        (filter (Aggregator.observed_within_24h now) (burnEvents (metrics w)))
  ∧ (treasuryBalance (metrics (processBurnEventData now e w))
       = treasuryBalance (metrics w)
     ∧ circulatingSupply (metrics (processBurnEventData now e w))
       = circulatingSupply (metrics w)
     ∧ currentSupply (metrics (processBurnEventData now e w))
       = Js.sub (currentSupply (metrics w)) (amount e)).
Proof.
  split; [by repeat split|]. split; [by repeat split|]. split; [|by repeat split].
  unfold fetchAllMetrics. by rewrite Aggregator.burnRate24h_calculateBurnRates.
Qed.


End Refresh.

(** A message whose [amount] is not a numeral. *)
Definition unparseable : SuiEvent :=
  {| txDigest := "7Hq";
     parsedJson := Some {[ "amount" := Js.String "abc" ]};
     timestampMs := Js.String "1700000000000" |}.

(** The claim as worded fails once a message with an unparseable amount
    has been processed: [currentSupply] is then [NaN], which is not zero,
    and the query returns the constant, not [currentSupply]. *)
Lemma nan_supply_counterexample :
  currentSupply (metrics
    (processBurnEvent (reader := DecimalReader.reader) 3 unparseable "topic"
       (fetchAllMetrics (reader := DecimalReader.reader) 0 unreachable constructor)))
  = Js.NaN
  ∧ Js.NaN ≠ Js.of_Z 0
  ∧ getTotalSupply
      (processBurnEvent (reader := DecimalReader.reader) 3 unparseable "topic"
         (fetchAllMetrics (reader := DecimalReader.reader) 0 unreachable constructor))
      (Normal (Some {| decimals := 6 |}))
    = Js.of_Z 1000000000
  ∧ Js.of_Z 1000000000 ≠ Js.NaN.
Proof.
  split; [evaluate|]. split; [done|]. split; [evaluate|done].
Qed.

(** The claim fails on both sides: a refresh one day after a burn changes
    [burnRate24h], and a burn changes [currentSupply]. *)
Lemma frames_counterexample :
  burnRate24h (metrics (processBurnEventData 0 (Aggregator.sample "tx" 1 0) constructor))
  = Js.of_Z 1
  ∧ burnRate24h (metrics
      (fetchAllMetrics (reader := DecimalReader.reader) 86400000 unreachable
         (processBurnEventData 0 (Aggregator.sample "tx" 1 0) constructor)))
    = Js.of_Z 0
  ∧ currentSupply (metrics constructor) = Js.of_Z 0
  ∧ currentSupply (metrics (processBurnEventData 0 (Aggregator.sample "tx" 1 0) constructor))
    = Js.of_Z (-1).
Proof.
  repeat split; evaluate.
Qed.


End Refresh.

(** ** The fallback poller *)

Module Fallback.
Import Watcher.

(** The event a poll cycle builds from a decrease of [change]. *)
Definition inferredBurn (clock : Clock) (change : Js.number) : BurnEvent :=
  {| txId := "treasury-" +:+ pretty (nowId clock);
     amount := change;
     timestamp := Js.of_Z (nowDate clock);
     eventType := "TreasuryBalanceDecrease" |}.

Lemma synthesizeBurn_fin (x y : Qc) clock :
  synthesizeBurn (Js.Fin x) (Js.Fin y) clock
  = if bool_decide (0 < x - y)%Qc
    then Some (inferredBurn clock (Js.Fin (x - y)%Qc))
    else None.
Proof.
  unfold synthesizeBurn. cbn [Js.sub]. rewrite JsFacts.gt_0_fin.
  by case_bool_decide.
Qed.

(** The event of a poll cycle has a positive amount. *)
Lemma synthesizeBurn_nonneg p c clock burnEvent :
  synthesizeBurn p c clock = Some burnEvent → Aggregator.nonneg_amount burnEvent.
Proof.
  unfold synthesizeBurn, Aggregator.nonneg_amount.
  destruct (Js.gt (Js.sub p c) (Js.of_Z 0)) eqn:Hgt; [|done].
  intros [= <-]. cbn [amount]. destruct (Js.sub p c) as [|q]; [done|].
  rewrite JsFacts.gt_0_fin in Hgt. apply bool_decide_eq_true_1 in Hgt.
  unfold Js.le, Js.of_Z. rewrite Z2Qc_inj_0. by apply Qclt_le_weak.
Qed.

Lemma eventType_not_a_topic : "TreasuryBalanceDecrease" ∉ TREASURY_EVENTS.
Proof.
  unfold TREASURY_EVENTS. rewrite !not_elem_of_cons.
  repeat split; [by vm_compute..|]. apply not_elem_of_nil.
Qed.

Section Fallback.
Context {reader : Js.StringReader}.

Lemma pollCycle_stores_current clock getObject p w :
  (pollCycle clock getObject p w).2 = getTreasuryBalance w getObject.
Proof. done. Qed.

(** C6.  In a poll cycle with previous balance [x] and fetched balance [y]:
    when [x - y > 0], exactly the event [inferredBurn] of amount [x - y],
    with a generated identifier and an event type that is none of the
    subscribed topics, is handed to [processBurnEventData]; when
    [x - y <= 0] the watcher is left as it was; in both cases (and for any
    values at all) the balance captured for the next cycle is the fetched
    one. *)
Theorem pollCycle_balance_diff (clock : Clock)
    (getObject : Completion SuiObjectResponse) (x y : Qc) (w : DeepBurnWatcher)
    (r : Runtime) (i : nat) (ms : Z) :
  getTreasuryBalance w getObject = Js.Fin y →
  ((0 < x - y)%Qc →
     pollCycle clock getObject (Js.Fin x) w
     = (processBurnEventData (nowRates clock)
          (inferredBurn clock (Js.Fin (x - y)%Qc)) w, Js.Fin y))
  ∧ ((x - y ≤ 0)%Qc → pollCycle clock getObject (Js.Fin x) w = (w, Js.Fin y))
  ∧ (eventType (inferredBurn clock (Js.Fin (x - y)%Qc)) ∉ TREASURY_EVENTS)
  ∧ txId (inferredBurn clock (Js.Fin (x - y)%Qc)) = "treasury-" +:+ pretty (nowId clock)
  ∧ (timers r !! i = Some (BalancePoll ms (Js.Fin x)) → watcher r = w →
     timers (dispatch r (PollFires i clock getObject)) !! i
     = Some (BalancePoll ms (Js.Fin y))).
Proof.
  intros Hy. split; [|split; [|split; [|split]]].
  - intros Hpos. unfold pollCycle. rewrite Hy, synthesizeBurn_fin.
    by rewrite bool_decide_eq_true_2.
  - intros Hle. unfold pollCycle. rewrite Hy, synthesizeBurn_fin.
    rewrite bool_decide_eq_false_2; [done|]. by apply Qcle_not_lt.
  - apply eventType_not_a_topic.
  - done.
  - intros Hi Hw. cbn [dispatch]. rewrite Hi.
    destruct (pollCycle clock getObject (Js.Fin x) (watcher r)) as [w' current] eqn:Hcycle.
    cbn [timers].
    assert (current = Js.Fin y) as ->.
    { change current with ((w', current).2).
      by rewrite <-Hcycle, pollCycle_stores_current, Hw. }
    apply list_lookup_insert_eq. by eapply lookup_lt_Some.
Qed.

(** A rejected treasury query reaches the poller as a balance of 0: the
    whole previous balance is reported as burned. *)
Lemma pollCycle_rejected_fetch clock error (x : Qc) w :
  (0 < x)%Qc →
  pollCycle clock (Throw error) (Js.Fin x) w
  = (processBurnEventData (nowRates clock) (inferredBurn clock (Js.Fin x)) w,
     Js.of_Z 0).
Proof.
  intros Hx. unfold pollCycle.
  change (getTreasuryBalance w (Throw error)) with (Js.Fin (Qc_of_Z 0)).
  rewrite synthesizeBurn_fin.
  assert (x - Qc_of_Z 0 = x)%Qc as -> by (rewrite Z2Qc_inj_0; ring).
  by rewrite bool_decide_eq_true_2.
Qed.

End Fallback.

(** A node whose treasury object holds [balance] raw units. *)
Definition treasuryHolds (balance : string) : Completion SuiObjectResponse :=
  Normal {| data := Some {| content :=
    Some (MoveObject {[ "balance" := Js.String balance ]}) |} |}.

Definition noon : Clock := {| nowId := 1700000000000; nowDate := 1700000000001;
                              nowRates := 1700000000002 |}.

Lemma getTreasuryBalance_900 :
  getTreasuryBalance (reader := DecimalReader.reader) constructor
    (treasuryHolds "900000000") = Js.Fin (Qc_of_Z 900).
Proof. evaluate. Qed.

Lemma pollCycle_balance_diff_witness :
  getTreasuryBalance (reader := DecimalReader.reader) constructor
    (treasuryHolds "900000000") = Js.Fin (Qc_of_Z 900)
  ∧ (0 < Qc_of_Z 1000 - Qc_of_Z 900)%Qc
  ∧ pollCycle (reader := DecimalReader.reader) noon (treasuryHolds "900000000")
      (Js.Fin (Qc_of_Z 1000)) constructor
    = (processBurnEventData (nowRates noon)
         (inferredBurn noon (Js.Fin (Qc_of_Z 1000 - Qc_of_Z 900)%Qc)) constructor,
       Js.Fin (Qc_of_Z 900)).
Proof.
  assert (0 < Qc_of_Z 1000 - Qc_of_Z 900)%Qc as Hpos.
  { rewrite <-Z2Qc_inj_sub, <-Z2Qc_inj_0. by apply (proj1 (Z2Qc_inj_lt _ _)). }
  split; [exact getTreasuryBalance_900|]. split; [exact Hpos|].
  exact (proj1 (pollCycle_balance_diff (reader := DecimalReader.reader) noon
           (treasuryHolds "900000000") (Qc_of_Z 1000) (Qc_of_Z 900) constructor
           boot 0 30000 getTreasuryBalance_900) Hpos).
Defined.

(** The three cycles of the specification: from a previous balance of 1000,
    a balance of 900 yields a burn of 100, balances of 1000 and 1100 yield
    nothing. *)
Lemma synthesizeBurn_examples :
  synthesizeBurn (Js.of_Z 1000) (Js.of_Z 900) noon
  = Some (inferredBurn noon (Js.of_Z 100))
  ∧ synthesizeBurn (Js.of_Z 1000) (Js.of_Z 1000) noon = None
  ∧ synthesizeBurn (Js.of_Z 1000) (Js.of_Z 1100) noon = None.
Proof.
  repeat split; evaluate.
Qed.

End Fallback.

(** ** The subscription manager *)

Module Subscriptions.
Import Watcher.

(** Whether the node accepts the subscription to a topic, and the topics of
    a list that it accepts. *)
Definition accepts (answer : string → Completion ()) (eventType : string) : bool :=
  match answer eventType with
  | Normal _ => true
  | Throw _ => false
  end.

Definition opened (answer : string → Completion ()) (topics : list string)
  : list string :=
  List.filter (accepts answer) topics.

(** [this.unsubscribe] once the unsubscribe functions of [new] have been
    chained behind it. *)
Definition chain (u : option (list string)) (new : list string) : option (list string) :=
  match new with
  | [] => u
  | _ => Some (default [] u ++ new)
  end.

Definition isBalancePoll (t : Timer) : bool :=
  match t with
  | BalancePoll _ _ => true
  | _ => false
  end.

Definition isResubscribe (t : Timer) : bool :=
  match t with
  | Resubscribe _ => true
  | _ => false
  end.

(** The number of fallback pollers that are running. *)
Definition fallbackPolls (r : Runtime) : nat :=
  length (List.filter isBalancePoll (timers r)).

(** A timer without the variable its closure captures. *)
Definition erase (t : Timer) : Timer :=
  match t with
  | BalancePoll ms _ => BalancePoll ms (Js.of_Z 0)
  | t => t
  end.

Lemma opened_nil answer topics :
  opened answer topics = [] ↔ ∀ t, t ∈ topics → ∃ e, answer t = Throw e.
Proof.
  unfold opened. induction topics as [|t topics IH]; cbn [List.filter].
  - split; [|done]. intros _ t Ht. by apply elem_of_nil in Ht.
  - unfold accepts at 1. destruct (answer t) as [[]|e] eqn:Ht.
    + split; [done|]. intros Hall.
      destruct (Hall t) as [e He]; [by left|]. congruence.
    + rewrite IH. split.
      * intros Hall t' [->|Ht']%elem_of_cons; [by exists e | by apply Hall].
      * intros Hall t' Ht'. apply Hall. by right.
Qed.

Lemma elem_of_opened answer topics t :
  t ∈ opened answer topics ↔ t ∈ topics ∧ answer t = Normal ().
Proof.
  unfold opened. rewrite list_elem_of_In, filter_In, <-list_elem_of_In.
  unfold accepts. destruct (answer t) as [[]|e]; intuition congruence.
Qed.

Lemma filter_isBalancePoll_delete (l : list Timer) (i : nat) (t : Timer) :
  l !! i = Some t → isBalancePoll t = false →
  List.filter isBalancePoll (delete i l) = List.filter isBalancePoll l.
Proof.
  revert i. induction l as [|x l IH]; intros [|i] Hi Ht; simplify_eq/=.
  - by rewrite Ht.
  - by rewrite (IH i).
Qed.

Lemma filter_isBalancePoll_insert (l : list Timer) (i : nat) (ms ms' : Z) (a b : Js.number) :
  l !! i = Some (BalancePoll ms a) →
  length (List.filter isBalancePoll (<[i := BalancePoll ms' b]> l))
  = length (List.filter isBalancePoll l).
Proof.
  revert i. induction l as [|x l IH]; intros [|i] Hi; simplify_eq/=; [done|].
  destruct (isBalancePoll x); simpl; by rewrite (IH i).
Qed.

Lemma erase_insert (l : list Timer) (i : nat) (ms : Z) (a b : Js.number) :
  l !! i = Some (BalancePoll ms a) →
  erase <$> <[i := BalancePoll ms b]> l = erase <$> l.
Proof.
  intros Hi. rewrite list_fmap_insert. apply list_insert_id.
  by rewrite list_lookup_fmap, Hi.
Qed.

Lemma isBalancePoll_erase (x x' : Timer) :
  erase x = erase x' → isBalancePoll x = isBalancePoll x'.
Proof. destruct x, x'; simpl; congruence. Qed.

Lemma isResubscribe_erase (x x' : Timer) :
  erase x = erase x' → isResubscribe x = isResubscribe x'.
Proof. destruct x, x'; simpl; congruence. Qed.

Lemma filter_isBalancePoll_erase (l l' : list Timer) :
  erase <$> l = erase <$> l' →
  length (List.filter isBalancePoll l) = length (List.filter isBalancePoll l').
Proof.
  revert l'. induction l as [|x l IH]; intros [|x' l'] Heq;
    cbn [fmap list_fmap] in Heq; try discriminate; [done|].
  injection Heq as Hx Hl. cbn [List.filter].
  rewrite (isBalancePoll_erase x x' Hx).
  destruct (isBalancePoll x'); cbn [length]; by rewrite (IH l' Hl).
Qed.

Lemma Forall_isResubscribe_erase (l l' : list Timer) :
  erase <$> l = erase <$> l' →
  Forall (λ t, isResubscribe t = false) l' → Forall (λ t, isResubscribe t = false) l.
Proof.
  revert l'. induction l as [|x l IH]; intros [|x' l'] Heq Hall;
    cbn [fmap list_fmap] in Heq; try discriminate; [done|].
  injection Heq as Hx Hl.
  inversion_clear Hall as [|?? Hx' Hl']. constructor; [|by eapply IH].
  by rewrite (isResubscribe_erase x x' Hx).
Qed.

Section Subscriptions.
Context {reader : Js.StringReader}.

Lemma set_unsubscribe_twice u u' w :
  set_unsubscribe u (set_unsubscribe u' w) = set_unsubscribe u w.
Proof. done. Qed.

Lemma subscribeTopic_spec answer t r :
  subscribeTopic answer t r
  = (Normal (),
     if accepts answer t then
       {| watcher :=
            set_unsubscribe (Some (default [] (unsubscribe (watcher r)) ++ [t]))
              (watcher r);
          timers := timers r;
          listeners := listeners r ++ [t] |}
     else r).
Proof.
  unfold subscribeTopic, async_try_catch, mbind, Async_bind, subscribeEvent, accepts.
  destruct (answer t) as [[]|e]; [|done].
  unfold getThis, setThis. cbn [watcher timers listeners].
  by destruct (unsubscribe (watcher r)).
Qed.

Lemma for_of_subscribeTopic answer topics r :
  for_of topics (subscribeTopic answer) r
  = (Normal (),
     {| watcher :=
          set_unsubscribe (chain (unsubscribe (watcher r)) (opened answer topics))
            (watcher r);
        timers := timers r;
        listeners := listeners r ++ opened answer topics |}).
Proof.
  revert r. induction topics as [|t topics IH]; intros r.
  - destruct r as [[] ? ?]. cbn. by rewrite app_nil_r.
  - cbn [for_of]. unfold mbind at 1, Async_bind at 1.
    rewrite subscribeTopic_spec, IH. unfold opened. cbn [List.filter].
    destruct (accepts answer t); [|done].
    cbn [watcher timers listeners set_unsubscribe unsubscribe metrics
         refreshInterval DEEP_DECIMALS].
    f_equal. f_equal.
    + rewrite set_unsubscribe_twice. f_equal. unfold chain.
      set (d := default [] (unsubscribe (watcher r))).
      destruct (List.filter (accepts answer) topics); [done|].
      change (default [] (Some (d ++ [t]))) with (d ++ [t]).
      by rewrite <-app_assoc.
    + by rewrite <-app_assoc.
Qed.

(** The state [setupEventSubscription] leaves behind. *)
Definition afterSetup (answer : string → Completion ()) (r : Runtime) : Runtime :=
  {| watcher :=
       set_unsubscribe
         (chain (unsubscribe (watcher r)) (opened answer TREASURY_EVENTS)) (watcher r);
     timers :=
       timers r ++
       match chain (unsubscribe (watcher r)) (opened answer TREASURY_EVENTS) with
       | None => [BalancePoll 30000 (treasuryBalance (metrics (watcher r)))]
       | Some _ => []
       end;
     listeners := listeners r ++ opened answer TREASURY_EVENTS |}.

Lemma setupEventSubscription_spec answer r :
  setupEventSubscription answer r = (Normal (), afterSetup answer r).
Proof.
  unfold setupEventSubscription, async_try_catch.
  unfold mbind at 1, Async_bind at 1. rewrite for_of_subscribeTopic.
  unfold mbind, Async_bind, getThis, afterSetup.
  cbn [watcher timers listeners set_unsubscribe unsubscribe metrics].
  destruct (chain (unsubscribe (watcher r)) (opened answer TREASURY_EVENTS)).
  - cbn. by rewrite app_nil_r.
  - done.
Qed.

Lemma initialize_spec now answers answer :
  (initialize now answers answer boot).2
  = {| watcher :=
         set_unsubscribe (chain None (opened answer TREASURY_EVENTS))
           (fetchAllMetrics now answers constructor);
       timers :=
         match chain None (opened answer TREASURY_EVENTS) with
         | None =>
             [BalancePoll 30000
                (treasuryBalance (metrics (fetchAllMetrics now answers constructor)))]
         | Some _ => []
         end ++ [RefreshInterval 15000];
       listeners := opened answer TREASURY_EVENTS |}.
Proof.
  unfold initialize. unfold mbind, Async_bind, getThis, setThis.
  cbn [boot watcher timers listeners].
  rewrite setupEventSubscription_spec. unfold addTimer, afterSetup.
  by cbn.
Qed.

Lemma fallbackPolls_initialize now answers answer :
  fallbackPolls (initialize now answers answer boot).2
  = if bool_decide (opened answer TREASURY_EVENTS = []) then 1 else 0.
Proof.
  rewrite initialize_spec. unfold fallbackPolls. cbn [timers].
  unfold chain. destruct (opened answer TREASURY_EVENTS); by cbn.
Qed.

Lemma no_Resubscribe_initialize now answers answer :
  Forall (λ t, isResubscribe t = false) (timers (initialize now answers answer boot).2).
Proof.
  rewrite initialize_spec. cbn [timers].
  destruct (chain None (opened answer TREASURY_EVENTS)); by repeat constructor.
Qed.

(** While no retry of the setup is pending, a callback changes neither the
    set of timers nor the open subscriptions. *)
Lemma dispatch_stable r c :
  Forall (λ t, isResubscribe t = false) (timers r) →
  erase <$> timers (dispatch r c) = erase <$> timers r
  ∧ listeners (dispatch r c) = listeners r.
Proof.
  intros Hno. destruct c as [t event now|i now answers|i clock getObject|i answer];
    cbn [dispatch].
  - by case_bool_decide.
  - by destruct (timers r !! i) as [[]|].
  - destruct (timers r !! i) as [[| ms lastBalance |]|] eqn:Hi; try done.
    destruct (pollCycle clock getObject lastBalance (watcher r)) as [w' current].
    cbn [timers listeners]. split; [|done]. by eapply erase_insert.
  - destruct (timers r !! i) as [[| |ms]|] eqn:Hi; try done.
    rewrite Forall_lookup in Hno. by specialize (Hno i _ Hi).
Qed.

Lemma run_stable r cs :
  Forall (λ t, isResubscribe t = false) (timers r) →
  erase <$> timers (run r cs) = erase <$> timers r
  ∧ listeners (run r cs) = listeners r.
Proof.
  revert r. induction cs as [|c cs IH]; intros r Hno; [done|].
  cbn [run foldl]. fold (run (dispatch r c) cs).
  destruct (dispatch_stable r c Hno) as [Ht Hl].
  destruct (IH (dispatch r c)) as [Ht' Hl'].
  { by eapply Forall_isResubscribe_erase. }
  split; congruence.
Qed.

(** No callback removes a fallback poller. *)
Lemma fallbackPolls_dispatch r c : fallbackPolls r ≤ fallbackPolls (dispatch r c).
Proof.
  unfold fallbackPolls.
  destruct c as [t event now|i now answers|i clock getObject|i answer];
    cbn [dispatch].
  - by case_bool_decide.
  - by destruct (timers r !! i) as [[]|].
  - destruct (timers r !! i) as [[| ms lastBalance |]|] eqn:Hi; try done.
    destruct (pollCycle clock getObject lastBalance (watcher r)) as [w' current].
    cbn [timers]. by erewrite filter_isBalancePoll_insert.
  - destruct (timers r !! i) as [[| |ms]|] eqn:Hi; try done.
    rewrite setupEventSubscription_spec. cbn [snd afterSetup timers watcher].
    rewrite List.filter_app, length_app.
    erewrite filter_isBalancePoll_delete by done. lia.
Qed.

(** The bound on the history holds along every run of the event loop. *)
Lemma history_bounded_dispatch r c :
  length (burnEvents (metrics (watcher r))) ≤ 100 →
  length (burnEvents (metrics (watcher (dispatch r c)))) ≤ 100.
Proof.
  intros Hr.
  assert (∀ now e w, length (burnEvents (metrics (processBurnEventData now e w))) ≤ 100)
    as Hburn.
  { intros. rewrite Aggregator.burnEvents_processBurnEventData, length_take. lia. }
  destruct c as [t event now|i now answers|i clock getObject|i answer];
    cbn [dispatch].
  - case_bool_decide; [apply Hburn | done].
  - by destruct (timers r !! i) as [[]|].
  - destruct (timers r !! i) as [[| ms lastBalance |]|] eqn:Hi; try done.
    unfold pollCycle.
    destruct (synthesizeBurn _ _ _); cbn [watcher]; [apply Hburn | done].
  - destruct (timers r !! i) as [[| |ms]|] eqn:Hi; try done.
    by rewrite setupEventSubscription_spec.
Qed.

(** X11.  After [initialize] and along every run of the event loop
    (messages of any subscription, refreshes, poll cycles, in any order and
    with any answers of the node), the history never holds more than 100
    events. *)
Lemma history_bounded_run now answers answer cs :
  length (burnEvents (metrics (watcher
    (run (initialize now answers answer boot).2 cs)))) ≤ 100.
Proof.
  assert (length (burnEvents (metrics (watcher (initialize now answers answer boot).2)))
          ≤ 100) as Hinit.
  { rewrite initialize_spec. cbn. lia. }
  revert Hinit. generalize (initialize now answers answer boot).2.
  induction cs as [|c cs IH]; intros r Hr; [done|].
  cbn [run foldl]. apply IH. by apply history_bounded_dispatch.
Qed.

(** C8.  After [initialize], a fallback poller is running exactly when no
    topic subscription was accepted, and then there is exactly one; no
    sequence of later callbacks starts another or stops it, and the open
    subscriptions stay open; and in any state whatever, also one in which a
    later callback opens a subscription, a callback never removes a running
    fallback poller, nor does [cleanup] clear a timer. *)
Theorem fallback_activated_once (now : Z) (answers : RefreshAnswers)
    (answer : string → Completion ()) (cs : list Callback)
    (r : Runtime) (c : Callback) :
  (fallbackPolls (initialize now answers answer boot).2 = 1
   ↔ ∀ t, t ∈ TREASURY_EVENTS → ∃ e, answer t = Throw e)
  ∧ fallbackPolls (initialize now answers answer boot).2 ≤ 1
  ∧ fallbackPolls (run (initialize now answers answer boot).2 cs)
    = fallbackPolls (initialize now answers answer boot).2
  ∧ listeners (run (initialize now answers answer boot).2 cs)
    = opened answer TREASURY_EVENTS
  ∧ fallbackPolls r ≤ fallbackPolls (dispatch r c)
  ∧ timers (cleanup r).2 = timers r.
Proof.
  split; [|split; [|split; [|split; [|split]]]];
    [| | | | |unfold cleanup; by destruct (unsubscribe (watcher r))].
  - rewrite fallbackPolls_initialize, <-opened_nil.
    case_bool_decide; naive_solver.
  - rewrite fallbackPolls_initialize. case_bool_decide; lia.
  - destruct (run_stable _ cs (no_Resubscribe_initialize now answers answer)) as [Ht _].
    unfold fallbackPolls. by apply filter_isBalancePoll_erase.
  - destruct (run_stable _ cs (no_Resubscribe_initialize now answers answer)) as [_ Hl].
    rewrite Hl, initialize_spec. done.
  - apply fallbackPolls_dispatch.
Qed.

(** C7 (as amended).  A failure to open the subscription of one topic is
    handled for that topic alone: [setupEventSubscription] completes
    normally whatever the node answers, the topics the node accepts are all
    registered, in order, and chained into [unsubscribe], and the only timer
    the setup adds is the fallback poller, when no subscription is open
    after the loop. *)
Theorem subscription_failure_is_local (answer : string → Completion ()) (r : Runtime) :
  (setupEventSubscription answer r).1 = Normal ()
  ∧ listeners (setupEventSubscription answer r).2
    = listeners r ++ opened answer TREASURY_EVENTS
  ∧ (∀ t, t ∈ opened answer TREASURY_EVENTS
          ↔ t ∈ TREASURY_EVENTS ∧ answer t = Normal ())
  ∧ unsubscribe (watcher (setupEventSubscription answer r).2)
    = chain (unsubscribe (watcher r)) (opened answer TREASURY_EVENTS)
  ∧ timers (setupEventSubscription answer r).2
    = timers r ++
      match chain (unsubscribe (watcher r)) (opened answer TREASURY_EVENTS) with
      | None => [BalancePoll 30000 (treasuryBalance (metrics (watcher r)))]
      | Some _ => []
      end.
Proof.
  rewrite setupEventSubscription_spec. cbn [fst snd].
  split; [done|]. split; [done|]. split; [|by split].
  intros t. apply elem_of_opened.
Qed.

End Subscriptions.

(** A node that refuses the second topic and accepts the other two. *)
Definition refusesDeepBurnEvent (eventType : string) : Completion () :=
  if String.eqb eventType (DEEPBOOK_PACKAGE_ID +:+ "::treasury::DeepBurnEvent")
  then Throw "subscription refused"
  else Normal ().

Lemma opened_refusesDeepBurnEvent :
  opened refusesDeepBurnEvent TREASURY_EVENTS
  = [ DEEPBOOK_PACKAGE_ID +:+ "::treasury::BurnEvent";
      DEEP_TOKEN_ADDRESS +:+ "::deep::BurnEvent" ].
Proof. by vm_compute. Qed.

(** The claim fails when the node refuses one topic: after [initialize] the
    only timer is the periodic refresh, so no retry is pending, and no
    sequence of callbacks ever opens the refused topic. *)
Lemma no_retry_counterexample :
  refusesDeepBurnEvent (DEEPBOOK_PACKAGE_ID +:+ "::treasury::DeepBurnEvent")
  = Throw "subscription refused"
  ∧ timers (initialize (reader := DecimalReader.reader) 0
              (Refresh.healthy "5000000" "7000000") refusesDeepBurnEvent boot).2
    = [RefreshInterval 15000]
  ∧ ∀ cs,
      listeners (run (reader := DecimalReader.reader)
        (initialize (reader := DecimalReader.reader) 0
           (Refresh.healthy "5000000" "7000000") refusesDeepBurnEvent boot).2 cs)
      = [ DEEPBOOK_PACKAGE_ID +:+ "::treasury::BurnEvent";
          DEEP_TOKEN_ADDRESS +:+ "::deep::BurnEvent" ].
Proof.
  split; [by vm_compute|]. split.
  - rewrite initialize_spec. cbn [timers].
    by rewrite opened_refusesDeepBurnEvent.
  - intros cs.
    destruct (run_stable (reader := DecimalReader.reader) _ cs
                (no_Resubscribe_initialize 0 (Refresh.healthy "5000000" "7000000")
                   refusesDeepBurnEvent))
      as [_ Hl].
    rewrite Hl, initialize_spec. cbn [listeners].
    apply opened_refusesDeepBurnEvent.
Qed.

End Subscriptions.

(** ** The earlier version in [index.ts]

    What the earlier watcher does with the same inputs, for comparison
    with the current one. *)

Module IndexTsFacts.
Import IndexTs.

(** The first attempt and the retries that follow it, with the answer of
    the node to each. *)
Definition attempts (answers : list (Completion ())) (r : Runtime) : Runtime :=
  match answers with
  | [] => r
  | first :: later =>
      foldl (λ r a, retryFires a r) (setupEventSubscription first r) later
  end.

Definition boot : Runtime :=
  {| watcher := constructor; pendingRetries := []; listeners := [] |}.

(** In [index.ts] every failed attempt leaves exactly one retry pending,
    5 seconds later, however many attempts have failed before. *)
Lemma index_ts_retries_without_limit (errors : list string) :
  errors ≠ [] →
  pendingRetries (attempts (Throw <$> errors) boot) = [5000%Z]
  ∧ listeners (attempts (Throw <$> errors) boot) = [].
Proof.
  destruct errors as [|e errors]; [done|]. intros _.
  cbn [attempts fmap list_fmap].
  change (setupEventSubscription (Throw e) boot)
    with {| watcher := constructor; pendingRetries := [5000%Z]; listeners := [] |}.
  induction errors as [|e' errors IH] using rev_ind; [done|].
  rewrite fmap_snoc, foldl_snoc.
  set (r := foldl _ _ _) in *. destruct IH as [Hp Hl].
  unfold retryFires. rewrite Hp. simpl. by rewrite Hl.
Qed.

Section IndexTsFacts.
Context {reader : Js.StringReader}.

(** X15.  [index.ts] never shortens the history: after any number of
    events it holds every one of them. *)
Lemma index_ts_history_unbounded (deliveries : list (Z * Watcher.SuiEvent)) :
  length (burnEvents (metrics
    (foldl (λ w d, processBurnEvent d.1 d.2 w) constructor deliveries)))
  = length deliveries.
Proof.
  induction deliveries as [|d deliveries IH] using rev_ind; [done|].
  rewrite foldl_snoc, length_app. cbn [length]. cbn [processBurnEvent calculateBurnRates
    metrics burnEvents length]. rewrite IH. lia.
Qed.

(** [index.ts] adds the amount it reads without scaling it. *)
Lemma index_ts_amount_unscaled now tx ts w :
  totalBurned (metrics (processBurnEvent now
    {| Watcher.txDigest := tx;
       Watcher.parsedJson := Some {[ "amount" := Js.String "500" ]};
       Watcher.timestampMs := ts |} w))
  = Js.add (totalBurned (metrics w)) (Js.of_Z 500).
Proof.
  cbn [processBurnEvent calculateBurnRates metrics totalBurned amount].
  change (Watcher.field _ "amount") with (Js.String "500").
  cbn [Js.truthy String.eqb negb]. f_equal.
  by apply (Normalizer.ToNumber_decimal 500).
Qed.

End IndexTsFacts.

End IndexTsFacts.

(** ** Invariants of the snapshot along the event loop *)

Module EventLoop.
Import Watcher.

(** The last-burn fields describe the newest entry of the history, and hold
    their initial values while the history is empty. *)
Definition lastBurn_consistent (w : DeepBurnWatcher) : Prop :=
  match burnEvents (metrics w) with
  | [] =>
      lastBurnTx (metrics w) = ""
      ∧ lastBurnAmount (metrics w) = Js.of_Z 0
      ∧ lastBurnTimestamp (metrics w) = new_Date (Js.of_Z 0)
  | newest :: _ =>
      lastBurnTx (metrics w) = txId newest
      ∧ lastBurnAmount (metrics w) = amount newest
      ∧ lastBurnTimestamp (metrics w) = timestamp newest
  end.

(** The event types a history entry can carry. *)
Definition known_source (e : BurnEvent) : Prop :=
  eventType e ∈ "TreasuryBalanceDecrease" :: TREASURY_EVENTS.

Section EventLoop.
Context {reader : Js.StringReader}.

Lemma initialize_general now answers answer r :
  (initialize now answers answer r).2
  = {| watcher :=
         watcher (Subscriptions.afterSetup answer
           {| watcher := fetchAllMetrics now answers (watcher r);
              timers := timers r; listeners := listeners r |});
       timers :=
         timers (Subscriptions.afterSetup answer
           {| watcher := fetchAllMetrics now answers (watcher r);
              timers := timers r; listeners := listeners r |})
         ++ [RefreshInterval (refreshInterval (watcher r))];
       listeners :=
         listeners (Subscriptions.afterSetup answer
           {| watcher := fetchAllMetrics now answers (watcher r);
              timers := timers r; listeners := listeners r |}) |}.
Proof.
  unfold initialize. unfold mbind, Async_bind, getThis, setThis.
  rewrite Subscriptions.setupEventSubscription_spec. by unfold addTimer.
Qed.

(** A property of the watcher that its three mutators keep is kept by
    every callback. *)
Lemma dispatch_invariant (P : DeepBurnWatcher → Prop) :
  (∀ now e w, P w → P (processBurnEventData now e w)) →
  (∀ now answers w, P w → P (fetchAllMetrics now answers w)) →
  (∀ u w, P w → P (set_unsubscribe u w)) →
  ∀ r c, P (watcher r) → P (watcher (dispatch r c)).
Proof.
  intros Hburn Hrefresh Hunsub r c Hr.
  destruct c as [t event now|i now answers|i clock getObject|i answer];
    cbn [dispatch].
  - case_bool_decide; [apply Hburn, Hr | done].
  - destruct (timers r !! i) as [[]|]; try done. apply Hrefresh, Hr.
  - destruct (timers r !! i) as [[| ms lastBalance |]|] eqn:Hi; try done.
    unfold pollCycle.
    destruct (synthesizeBurn _ _ _); cbn [watcher]; [apply Hburn, Hr | done].
  - destruct (timers r !! i) as [[| |ms]|] eqn:Hi; try done.
    rewrite Subscriptions.setupEventSubscription_spec. apply Hunsub, Hr.
Qed.

Lemma run_invariant (P : DeepBurnWatcher → Prop) :
  (∀ now e w, P w → P (processBurnEventData now e w)) →
  (∀ now answers w, P w → P (fetchAllMetrics now answers w)) →
  (∀ u w, P w → P (set_unsubscribe u w)) →
  ∀ now answers answer r cs,
    P (watcher r) → P (watcher (run (initialize now answers answer r).2 cs)).
Proof.
  intros Hburn Hrefresh Hunsub now answers answer r cs Hr.
  assert (P (watcher (initialize now answers answer r).2)) as Hinit.
  { rewrite initialize_general. cbn [watcher Subscriptions.afterSetup].
    apply Hunsub, Hrefresh, Hr. }
  revert Hinit. generalize (initialize now answers answer r).2.
  induction cs as [|c cs IH]; intros r' Hr'; [done|].
  cbn [run foldl]. apply IH. by apply dispatch_invariant.
Qed.

Lemma lastBurn_consistent_burn now e w :
  lastBurn_consistent (processBurnEventData now e w).
Proof.
  unfold lastBurn_consistent.
  rewrite Aggregator.burnEvents_processBurnEventData. by cbn [take].
Qed.

(** X1.  From process start and along every run of the event loop
    (messages, refreshes, poll cycles, in any order), the last-burn fields
    of the snapshot are those of the newest entry of the history, and are
    the initial ones while the history is empty. *)
Theorem lastBurn_is_newest_entry (now : Z) (answers : RefreshAnswers)
    (answer : string → Completion ()) (cs : list Callback) :
  lastBurn_consistent (watcher (run (initialize now answers answer boot).2 cs)).
Proof.
  apply (run_invariant lastBurn_consistent).
  - intros now' e w _. apply lastBurn_consistent_burn.
  - by intros now' answers' w Hw.
  - by intros u w Hw.
  - by cbn.
Qed.

Lemma known_source_burn now e w :
  known_source e →
  Forall known_source (burnEvents (metrics w)) →
  Forall known_source (burnEvents (metrics (processBurnEventData now e w))).
Proof.
  intros He Hw. rewrite Aggregator.burnEvents_processBurnEventData.
  apply Forall_take. by constructor.
Qed.

End EventLoop.

End EventLoop.

(** ** A session of burns and refreshes *)

Module Session.
Import Watcher.

(** What the aggregator is asked to do, in order: process a burn event or
    refresh the absolute fields. *)
Inductive Op :=
| Burn (now : Z) (e : BurnEvent)
| Refreshed (now : Z) (answers : RefreshAnswers).

Section Session.
Context {reader : Js.StringReader}.

Definition apply (w : DeepBurnWatcher) (op : Op) : DeepBurnWatcher :=
  match op with
  | Burn now e => processBurnEventData now e w
  | Refreshed now answers => fetchAllMetrics now answers w
  end.






Lemma TimeClip_of_Z (z : Z) :
  (-8640000000000000 ≤ z ≤ 8640000000000000)%Z → Js.TimeClip (Js.of_Z z) = Js.of_Z z.
Proof.
  intros [Hlo Hhi]. unfold Js.TimeClip, Js.of_Z.
  rewrite !bool_decide_eq_true_2
    by (by apply (proj1 (Z2Qc_inj_le _ _))).
  cbn. by rewrite Z.quot_1_r.
Qed.

Lemma burnRate24h_processBurnEventData now e w :
  burnRate24h (metrics (processBurnEventData now e w))
  = fold_left (λ sum event, Js.add sum (amount event))
      (List.filter (in_last_24h now) (take 100 (e :: burnEvents (metrics w))))
      (Js.of_Z 0).
Proof.
  rewrite <-(Aggregator.burnEvents_processBurnEventData now). done.
Qed.

Lemma in_last_24h_missing now w tx payload eventType :
  in_last_24h now (normalize w
    {| txDigest := tx; parsedJson := payload; timestampMs := Js.Undefined |} eventType)
  = false.
Proof. done. Qed.

(** X4.  An event that arrives without [timestampMs] gets an invalid date:
    it enters the history and its amount is added to [totalBurned], but it
    is in no 24-hour window, so [burnRate24h] is what the [reduce] of
    [calculateBurnRates] adds up over the older entries alone (the 99
    newest of them). *)
Theorem missing_timestamp_outside_window (w : DeepBurnWatcher) (tx eventType : string)
    (payload : option (gmap string Js.value)) (now now' : Z) :
  timestamp (normalize w
    {| txDigest := tx; parsedJson := payload; timestampMs := Js.Undefined |} eventType)
  = Js.NaN
  ∧ in_last_24h now' (normalize w
      {| txDigest := tx; parsedJson := payload; timestampMs := Js.Undefined |} eventType)
    = false
  ∧ burnRate24h (metrics (processBurnEvent now
      {| txDigest := tx; parsedJson := payload; timestampMs := Js.Undefined |}
      eventType w))
    = fold_left (λ sum event, Js.add sum (amount event))
        (List.filter (in_last_24h now) (take 99 (burnEvents (metrics w))))
        (Js.of_Z 0)
  ∧ totalBurned (metrics (processBurnEvent now
      {| txDigest := tx; parsedJson := payload; timestampMs := Js.Undefined |}
      eventType w))
    = Js.add (totalBurned (metrics w)) (extractAmount w payload).
Proof.
  split; [done|]. split; [done|]. split; [|done].
  unfold processBurnEvent. rewrite burnRate24h_processBurnEventData.
  cbn [take List.filter]. by rewrite in_last_24h_missing.
Qed.

(** X5.  A [timestampMs] that is a decimal numeral no larger than
    8.64e15 survives the way through [Number], [new Date] and [getTime]:
    the timestamp of the event is that number of milliseconds. *)
Theorem timestamp_round_trip (w : DeepBurnWatcher) (tx eventType : string)
    (payload : option (gmap string Js.value)) (n : N) :
  (Z.of_N n ≤ 8640000000000000)%Z →
  getTime (timestamp (normalize w
    {| txDigest := tx; parsedJson := payload; timestampMs := Js.String (pretty n) |}
    eventType))
  = Js.of_Z (Z.of_N n).
Proof.
  intros Hn.
  change (Js.TimeClip (Js.ToNumber (Js.String (pretty n))) = Js.of_Z (Z.of_N n)).
  rewrite (Normalizer.ToNumber_decimal n) by done.
  apply TimeClip_of_Z. lia.
Qed.

End Session.




Lemma timestamp_round_trip_witness :
  (Z.of_N 1700000000000 ≤ 8640000000000000)%Z
  ∧ getTime (timestamp (normalize (reader := DecimalReader.reader) constructor
      {| txDigest := "7Hq"; parsedJson := None;
         timestampMs := Js.String (pretty 1700000000000%N) |} "topic"))
    = Js.of_Z (Z.of_N 1700000000000).
Proof.
  assert (Z.of_N 1700000000000 ≤ 8640000000000000)%Z as Hn by lia.
  split; [exact Hn|].
  exact (timestamp_round_trip (reader := DecimalReader.reader) constructor
           "7Hq" "topic" None 1700000000000 Hn).
Defined.

End Session.

(** ** A refresh overlapped by burn events

    [fetchAllMetrics] gives the control back to the event loop at
    [await Promise.all(...)].  [getTotalSupply] reads [currentSupply] when
    the metadata query has been answered; the three fields are assigned
    when the last of the three queries has been answered; a message that
    is delivered in between is processed on the snapshot in between.
    [Watcher.fetchAllMetrics] is the refresh in which nothing is delivered
    in between. *)

Module Overlap.
Import Watcher.

Section Overlap.
Context {reader : Js.StringReader}.

(** The statements of [fetchAllMetrics] that follow
    [await Promise.all(...)], with the values the three getters resolved
    to. *)
Definition assign (now : Z) (supply treasury circulating : Js.number)
    (w : DeepBurnWatcher) : DeepBurnWatcher :=
  let m := metrics w in
  calculateBurnRates now
    (set_metrics
       {| currentSupply := supply;
          totalBurned := totalBurned m;
          burnRate24h := burnRate24h m;
          lastBurnTx := lastBurnTx m;
          lastBurnAmount := lastBurnAmount m;
          lastBurnTimestamp := lastBurnTimestamp m;
          treasuryBalance := treasury;
          burnEvents := burnEvents m;
          circulatingSupply := circulating |} w).

(** A refresh whose metadata query is answered on the snapshot [w] and
    during which the burn events [between] are processed, oldest first,
    before the last query is answered at [now]. *)
Definition overlapped (now : Z) (answers : RefreshAnswers)
    (between : list (Z * BurnEvent)) (w : DeepBurnWatcher) : DeepBurnWatcher :=
  let supply := getTotalSupply w (coinMetadata answers) in
  let treasury := getTreasuryBalance w (treasuryObject answers) in
  let circulating := getCirculatingSupply w (allCoins answers) in
  assign now supply treasury circulating (Aggregator.handle w between).

(** X2.  A burn event that is processed while a refresh is in flight is
    counted in [totalBurned] and entered in the history, but what it
    subtracted from [currentSupply] is overwritten when the refresh
    assigns the supply it read before: [currentSupply] ends as it was
    before the burns (1,000,000,000 if that was 0 or [NaN]).  The same
    burn processed after the refresh is subtracted.  Without a burn in
    between, the overlapped refresh is [fetchAllMetrics]. *)
Theorem burn_during_refresh_is_overwritten (now : Z) (answers : RefreshAnswers)
    (between : list (Z * BurnEvent)) (d : Z * BurnEvent) (w : DeepBurnWatcher) :
  overlapped now answers [] w = fetchAllMetrics now answers w
  ∧ currentSupply (metrics (overlapped now answers between w))
    = Js.or (currentSupply (metrics w)) (Js.of_Z 1000000000)
  ∧ totalBurned (metrics (overlapped now answers between w))
    = fold_left (λ sum event, Js.add sum (amount event)) between.*2
        (totalBurned (metrics w))
  ∧ burnEvents (metrics (overlapped now answers between w))
    = burnEvents (metrics (Aggregator.handle w between))
  ∧ currentSupply (metrics
      (processBurnEventData d.1 d.2 (fetchAllMetrics now answers w)))
    = Js.sub (Js.or (currentSupply (metrics w)) (Js.of_Z 1000000000)) (amount d.2).
Proof.
  split; [done|]. split; [|split; [|split]].
  - change (currentSupply (metrics (overlapped now answers between w)))
      with (getTotalSupply w (coinMetadata answers)).
    apply Refresh.getTotalSupply_or.
  - change (totalBurned (metrics (overlapped now answers between w)))
      with (totalBurned (metrics (Aggregator.handle w between))).
    apply Aggregator.totalBurned_handle.
  - done.
  - change (currentSupply (metrics
             (processBurnEventData d.1 d.2 (fetchAllMetrics now answers w))))
      with (Js.sub (getTotalSupply w (coinMetadata answers)) (amount d.2)).
    by rewrite Refresh.getTotalSupply_or.
Qed.

End Overlap.

(** A burn of 5 DEEP delivered during the second refresh of a new watcher:
    the supply stays at 1,000,000,000 and 5 is counted as burned; delivered
    after that refresh, it leaves a supply of 999,999,995. *)
Lemma overlapped_refresh_example :
  currentSupply (metrics
    (overlapped (reader := DecimalReader.reader) 15000 Refresh.unreachable
       [(7000%Z, Aggregator.sample "9xQ" 5 7000)]
       (fetchAllMetrics (reader := DecimalReader.reader) 0 Refresh.unreachable
          constructor)))
  = Js.of_Z 1000000000
  ∧ totalBurned (metrics
      (overlapped (reader := DecimalReader.reader) 15000 Refresh.unreachable
         [(7000%Z, Aggregator.sample "9xQ" 5 7000)]
         (fetchAllMetrics (reader := DecimalReader.reader) 0 Refresh.unreachable
            constructor)))
    = Js.of_Z 5
  ∧ currentSupply (metrics
      (processBurnEventData 16000 (Aggregator.sample "9xQ" 5 16000)
         (fetchAllMetrics (reader := DecimalReader.reader) 15000 Refresh.unreachable
            (fetchAllMetrics (reader := DecimalReader.reader) 0 Refresh.unreachable
               constructor))))
    = Js.of_Z 999999995.
Proof.
  repeat split; evaluate.
Qed.

End Overlap.

(** ** The ledger queries *)

Module Queries.
Import Watcher.

(** A decimal numeral is never the empty string, so it is truthy. *)
Lemma pretty_N_go_nonempty (x : N) (s : string) : s ≠ "" → pretty_N_go x s ≠ "".
Proof.
  revert s. induction (N.lt_wf_0 x) as [x _ IH]; intros s Hs.
  destruct (decide (x = 0)%N) as [->|Hx]; [by rewrite pretty_N_go_0|].
  rewrite pretty_N_go_step by lia. apply IH; [apply N.div_lt; lia | done].
Qed.

Lemma truthy_pretty (n : N) : Js.truthy (Js.String (pretty n)) = true.
Proof.
  cbn [Js.truthy]. apply negb_true_iff, String.eqb_neq.
  unfold pretty, pretty_N. case_decide as Hn; [done|].
  destruct (decide (n = 0)%N) as [->|Hpos]; [done|].
  rewrite pretty_N_go_step by lia. by apply pretty_N_go_nonempty.
Qed.

(** A treasury object with the given fields. *)
Definition treasuryWith (fields : gmap string Js.value) : Completion SuiObjectResponse :=
  Normal {| data := Some {| content := Some (MoveObject fields) |} |}.

Section Queries.
Context {reader : Js.StringReader}.

(** The loop of [getCirculatingSupply], from the running sum [acc]. *)
Lemma circulating_NaN w (coins : list CoinStruct) :
  fold_left
    (λ sum coin,
       Js.add sum (Js.div (Js.ToNumber (Js.String (balance coin)))
                          (Js.pow10 (DEEP_DECIMALS w))))
    coins Js.NaN
  = Js.NaN.
Proof. by induction coins as [|coin coins IH]. Qed.

Lemma add_NaN_r (a : Js.number) : Js.add a Js.NaN = Js.NaN.
Proof. by destruct a. Qed.

(** X7.  [getCirculatingSupply] cannot tell a failure from an empty
    ledger, and does not survive one unreadable balance: it is 0 when the
    query is rejected, as for an empty list of coins; for a single coin
    whose balance is a decimal numeral (up to [2^53], which [Number] reads
    exactly) it is that balance divided by [10^d]; and when [Number] reads one balance of the list as [NaN], the
    result is [NaN] whatever the other coins hold. *)
Theorem circulating_supply_failure_modes (w : DeepBurnWatcher)
    (before after : list CoinStruct) (coin : CoinStruct) (n : N) (error : string) :
  getCirculatingSupply w (Throw error) = Js.of_Z 0
  ∧ getCirculatingSupply w (Normal []) = Js.of_Z 0
  ∧ ((Z.of_N n ≤ 2 ^ 53)%Z →
     getCirculatingSupply w (Normal [ {| balance := pretty n |} ])
     = Js.Fin (Qc_of_Z (Z.of_N n) / Qc_of_Z (10 ^ Z.of_nat (DEEP_DECIMALS w)))%Qc)
  ∧ (Js.ToNumber (Js.String (balance coin)) = Js.NaN →
     getCirculatingSupply w (Normal (before ++ coin :: after)) = Js.NaN).
Proof.
  split; [done|]. split; [done|]. split.
  - intros _. unfold getCirculatingSupply. cbn [mbind Completion_bind fold_left balance].
    rewrite (Normalizer.ToNumber_decimal n) by done.
    unfold Js.of_Z at 2. by rewrite JsFacts.div_pow10_fin, JsFacts.add_0_l.
  - intros Hnan. unfold getCirculatingSupply. cbn [mbind Completion_bind].
    rewrite fold_left_app. cbn [fold_left]. rewrite Hnan.
    cbn [Js.div]. rewrite add_NaN_r. apply circulating_NaN.
Qed.

Lemma getTreasuryBalance_first w fields k :
  List.find (λ k, Js.truthy (Js.get fields k)) ["deep_supply"; "balance"; "total_supply"]
  = Some k →
  getTreasuryBalance w (treasuryWith fields)
  = Js.div (Js.ToNumber (Js.get fields k)) (Js.pow10 (DEEP_DECIMALS w)).
Proof.
  unfold getTreasuryBalance, treasuryWith. cbn [mbind Completion_bind data content
    option_bind List.find].
  destruct (Js.truthy (Js.get fields "deep_supply")); [by intros [= <-]|].
  destruct (Js.truthy (Js.get fields "balance")); [by intros [= <-]|].
  by destruct (Js.truthy (Js.get fields "total_supply")); [intros [= <-]|].
Qed.

Lemma get_numeral fields k (n : N) :
  fields !! k = Some (Js.String (pretty n)) →
  Js.get fields k = Js.String (pretty n)
  ∧ Js.truthy (Js.get fields k) = true.
Proof. intros Hk. unfold Js.get. rewrite Hk. split; [done|apply truthy_pretty]. Qed.

Lemma get_absent (fields : gmap string Js.value) k :
  fields !! k = None → Js.truthy (Js.get fields k) = false.
Proof. intros Hk. unfold Js.get. by rewrite Hk. Qed.

(** X6.  [getTreasuryBalance] reads the raw balance from [deep_supply],
    else from [balance], else from [total_supply], whatever the later
    fields hold, and scales it by [10^d]; it is 0 when the object has none
    of the three fields, is a package, has no content or no data, or when
    the query is rejected: a failure cannot be told from an empty
    treasury. *)
Theorem treasury_balance_precedence (w : DeepBurnWatcher)
    (fields : gmap string Js.value) (raw : N) (error : string) :
  (fields !! "deep_supply" = Some (Js.String (pretty raw)) →
   getTreasuryBalance w (treasuryWith fields)
   = Js.Fin (Qc_of_Z (Z.of_N raw) / Qc_of_Z (10 ^ Z.of_nat (DEEP_DECIMALS w)))%Qc)
  ∧ (fields !! "deep_supply" = None →
     fields !! "balance" = Some (Js.String (pretty raw)) →
     getTreasuryBalance w (treasuryWith fields)
     = Js.Fin (Qc_of_Z (Z.of_N raw) / Qc_of_Z (10 ^ Z.of_nat (DEEP_DECIMALS w)))%Qc)
  ∧ (fields !! "deep_supply" = None → fields !! "balance" = None →
     fields !! "total_supply" = Some (Js.String (pretty raw)) →
     getTreasuryBalance w (treasuryWith fields)
     = Js.Fin (Qc_of_Z (Z.of_N raw) / Qc_of_Z (10 ^ Z.of_nat (DEEP_DECIMALS w)))%Qc)
  ∧ (fields !! "deep_supply" = None → fields !! "balance" = None →
     fields !! "total_supply" = None →
     getTreasuryBalance w (treasuryWith fields) = Js.of_Z 0)
  ∧ getTreasuryBalance w (Normal {| data := Some {| content := Some Package |} |})
    = Js.of_Z 0
  ∧ getTreasuryBalance w (Normal {| data := Some {| content := None |} |}) = Js.of_Z 0
  ∧ getTreasuryBalance w (Normal {| data := None |}) = Js.of_Z 0
  ∧ getTreasuryBalance w (Throw error) = Js.of_Z 0.
Proof.
  assert (∀ k, fields !! k = Some (Js.String (pretty raw)) →
            Js.div (Js.ToNumber (Js.get fields k)) (Js.pow10 (DEEP_DECIMALS w))
            = Js.Fin (Qc_of_Z (Z.of_N raw)
                      / Qc_of_Z (10 ^ Z.of_nat (DEEP_DECIMALS w)))%Qc) as Hread.
  { intros k Hk. destruct (get_numeral fields k raw Hk) as [-> _].
    rewrite (Normalizer.ToNumber_decimal raw) by done.
    unfold Js.of_Z. apply JsFacts.div_pow10_fin. }
  split; [|split; [|split; [|split; [|by repeat split]]]].
  - intros H1. rewrite (getTreasuryBalance_first w fields "deep_supply").
    + by apply Hread.
    + cbn [List.find]. by rewrite (proj2 (get_numeral fields _ raw H1)).
  - intros H1 H2. rewrite (getTreasuryBalance_first w fields "balance").
    + by apply Hread.
    + cbn [List.find].
      by rewrite (get_absent fields _ H1), (proj2 (get_numeral fields _ raw H2)).
  - intros H1 H2 H3. rewrite (getTreasuryBalance_first w fields "total_supply").
    + by apply Hread.
    + cbn [List.find].
      by rewrite (get_absent fields _ H1), (get_absent fields _ H2),
        (proj2 (get_numeral fields _ raw H3)).
  - intros H1 H2 H3. unfold getTreasuryBalance, treasuryWith.
    cbn [mbind Completion_bind data content option_bind].
    by rewrite (get_absent fields _ H1), (get_absent fields _ H2),
      (get_absent fields _ H3).
Qed.

End Queries.

Lemma treasury_balance_precedence_witness :
  ({[ "deep_supply" := Js.String (pretty 2500000%N);
      "balance" := Js.String (pretty 9%N) ]} : gmap string Js.value) !! "deep_supply"
  = Some (Js.String (pretty 2500000%N))
  ∧ getTreasuryBalance (reader := DecimalReader.reader) constructor
      (treasuryWith {[ "deep_supply" := Js.String (pretty 2500000%N);
                       "balance" := Js.String (pretty 9%N) ]})
    = Js.Fin (Qc_of_Z (Z.of_N 2500000)
              / Qc_of_Z (10 ^ Z.of_nat (DEEP_DECIMALS constructor)))%Qc.
Proof.
  assert (({[ "deep_supply" := Js.String (pretty 2500000%N);
              "balance" := Js.String (pretty 9%N) ]} : gmap string Js.value)
          !! "deep_supply" = Some (Js.String (pretty 2500000%N))) as Hk
    by (vm_compute; reflexivity).
  split; [exact Hk|].
  exact (proj1 (treasury_balance_precedence (reader := DecimalReader.reader)
           constructor _ 2500000 "e") Hk).
Defined.

Lemma circulating_supply_failure_modes_witness :
  ((Z.of_N 2500000 ≤ 2 ^ 53)%Z
   ∧ getCirculatingSupply (reader := DecimalReader.reader) constructor
       (Normal [ {| balance := pretty 2500000%N |} ])
     = Js.Fin (Qc_of_Z (Z.of_N 2500000)
               / Qc_of_Z (10 ^ Z.of_nat (DEEP_DECIMALS constructor)))%Qc)
  ∧ @Js.ToNumber DecimalReader.reader (Js.String (balance {| balance := "abc" |})) = Js.NaN
  ∧ getCirculatingSupply (reader := DecimalReader.reader) constructor
      (Normal ([ {| balance := "5000000" |} ]
               ++ {| balance := "abc" |} :: [ {| balance := "7000000" |} ]))
    = Js.NaN.
Proof.
  assert (@Js.ToNumber DecimalReader.reader
            (Js.String (balance {| balance := "abc" |})) = Js.NaN) as Hnan
    by (vm_compute; reflexivity).
  assert (Z.of_N 2500000 ≤ 2 ^ 53)%Z as Hn by lia.
  split; [split; [exact Hn|]|split; [exact Hnan|]].
  - exact (proj1 (proj2 (proj2 (circulating_supply_failure_modes
             (reader := DecimalReader.reader) constructor
             [ {| balance := "5000000" |} ] [ {| balance := "7000000" |} ]
             {| balance := "abc" |} 2500000 "e"))) Hn).
  - exact (proj2 (proj2 (proj2 (circulating_supply_failure_modes
             (reader := DecimalReader.reader) constructor
             [ {| balance := "5000000" |} ] [ {| balance := "7000000" |} ]
             {| balance := "abc" |} 0 "e"))) Hnan).
Defined.

End Queries.

(** ** The fallback poller in operation *)

Module PollerRuns.
Import Watcher.

(** A node that refuses every subscription. *)
Definition refusesAll (eventType : string) : Completion () := Throw "subscription refused".

Section PollerRuns.
Context {reader : Js.StringReader}.

Lemma getTreasuryBalance_decimals w w' getObject :
  DEEP_DECIMALS w' = DEEP_DECIMALS w →
  getTreasuryBalance w' getObject = getTreasuryBalance w getObject.
Proof. intros Hd. unfold getTreasuryBalance. by rewrite Hd. Qed.

Lemma synthesizeBurn_same (b : Js.number) clock : synthesizeBurn b b clock = None.
Proof.
  destruct b as [|x]; [done|]. rewrite Fallback.synthesizeBurn_fin.
  rewrite bool_decide_eq_false_2; [done|].
  replace (x - x)%Qc with 0%Qc by ring. intros H0. by apply (Qclt_not_eq _ _ H0).
Qed.

Lemma synthesizeBurn_from_zero (x : Qc) clock :
  (0 < x)%Qc → synthesizeBurn (Js.of_Z 0) (Js.Fin x) clock = None.
Proof.
  intros Hx. unfold Js.of_Z. rewrite Fallback.synthesizeBurn_fin, Z2Qc_inj_0.
  rewrite bool_decide_eq_false_2; [done|].
  apply Qcle_not_lt. replace (0 - x)%Qc with (- x)%Qc by ring.
  apply (Qcplus_le_mono_r _ _ x). replace (- x + x)%Qc with 0%Qc by ring.
  rewrite Qcplus_0_l. by apply Qclt_le_weak.
Qed.

(** X8.  One rejected treasury query between two cycles that see the same
    balance [x > 0]: the failing cycle reads the balance as 0 and hands a
    burn of the whole balance [x] to the aggregator, the next cycle finds
    the balance back at [x] and reports nothing, so [totalBurned] has grown
    by [x] although the treasury never changed. *)
Theorem transient_failure_counts_as_burn (clock1 clock2 : Clock) (error : string)
    (getObject : Completion SuiObjectResponse) (x : Qc) (w : DeepBurnWatcher) :
  (0 < x)%Qc →
  getTreasuryBalance w getObject = Js.Fin x →
  (pollCycle clock1 (Throw error) (Js.Fin x) w).2 = Js.of_Z 0
  ∧ pollCycle clock2 getObject
      (pollCycle clock1 (Throw error) (Js.Fin x) w).2
      (pollCycle clock1 (Throw error) (Js.Fin x) w).1
    = ((pollCycle clock1 (Throw error) (Js.Fin x) w).1, Js.Fin x)
  ∧ totalBurned (metrics (pollCycle clock1 (Throw error) (Js.Fin x) w).1)
    = Js.add (totalBurned (metrics w)) (Js.Fin x).
Proof.
  intros Hx Hbalance. rewrite Fallback.pollCycle_rejected_fetch by done.
  cbn [fst snd]. split; [done|]. split; [|done].
  unfold pollCycle. rewrite (getTreasuryBalance_decimals w) by done.
  rewrite Hbalance. by rewrite synthesizeBurn_from_zero.
Qed.

(** X9.  When every subscription was refused, the poller that [initialize]
    starts remembers the treasury balance of the first refresh: a first
    cycle that gets the same answer from the node changes nothing, neither
    in the snapshot nor in the timers. *)
Theorem first_poll_with_same_balance (now : Z) (answers : RefreshAnswers)
    (answer : string → Completion ()) (clock : Clock) :
  (∀ t, t ∈ TREASURY_EVENTS → ∃ e, answer t = Throw e) →
  timers (initialize now answers answer boot).2 !! 0
  = Some (BalancePoll 30000
            (getTreasuryBalance constructor (treasuryObject answers)))
  ∧ dispatch (initialize now answers answer boot).2
      (PollFires 0 clock (treasuryObject answers))
    = (initialize now answers answer boot).2.
Proof.
  intros Hall%Subscriptions.opened_nil.
  rewrite Subscriptions.initialize_spec, Hall. cbn [Subscriptions.chain].
  split; [done|].
  cbn [dispatch timers lookup list_lookup app watcher listeners].
  unfold pollCycle.
  rewrite (getTreasuryBalance_decimals constructor) by done.
  change (treasuryBalance (metrics (fetchAllMetrics now answers constructor)))
    with (getTreasuryBalance constructor (treasuryObject answers)).
  by rewrite synthesizeBurn_same.
Qed.

End PollerRuns.

Lemma transient_failure_counts_as_burn_witness :
  (0 < Qc_of_Z 900)%Qc
  ∧ getTreasuryBalance (reader := DecimalReader.reader) constructor
      (Fallback.treasuryHolds "900000000") = Js.Fin (Qc_of_Z 900)
  ∧ totalBurned (metrics
      (pollCycle (reader := DecimalReader.reader) Fallback.noon (Throw "timeout")
         (Js.Fin (Qc_of_Z 900)) constructor).1)
    = Js.add (totalBurned (metrics constructor)) (Js.Fin (Qc_of_Z 900)).
Proof.
  assert (0 < Qc_of_Z 900)%Qc as Hx.
  { rewrite <-Z2Qc_inj_0. by apply (proj1 (Z2Qc_inj_lt _ _)). }
  split; [exact Hx|]. split; [exact Fallback.getTreasuryBalance_900|].
  exact (proj2 (proj2 (transient_failure_counts_as_burn
           (reader := DecimalReader.reader) Fallback.noon Fallback.noon "timeout"
           (Fallback.treasuryHolds "900000000") (Qc_of_Z 900) constructor
           Hx Fallback.getTreasuryBalance_900))).
Defined.

Lemma first_poll_with_same_balance_witness :
  (∀ t, t ∈ TREASURY_EVENTS → ∃ e, refusesAll t = Throw e)
  ∧ dispatch (reader := DecimalReader.reader)
      (initialize (reader := DecimalReader.reader) 0
         (Refresh.healthy "5000000" "7000000") refusesAll boot).2
      (PollFires 0 Fallback.noon (treasuryObject (Refresh.healthy "5000000" "7000000")))
    = (initialize (reader := DecimalReader.reader) 0
         (Refresh.healthy "5000000" "7000000") refusesAll boot).2.
Proof.
  assert (∀ t, t ∈ TREASURY_EVENTS → ∃ e, refusesAll t = Throw e) as Hall.
  { intros t _. by exists "subscription refused". }
  split; [exact Hall|].
  exact (proj2 (first_poll_with_same_balance (reader := DecimalReader.reader) 0
           (Refresh.healthy "5000000" "7000000") refusesAll Fallback.noon Hall)).
Defined.

End PollerRuns.

(** ** Runs of the whole process *)

Module Runs.
Import Watcher.

Lemma list_difference_all {A} `{EqDecision A} (l k : list A) :
  (∀ x, x ∈ l → x ∈ k) → list_difference l k = [].
Proof.
  intros Hall. apply elem_of_nil_inv. intros x.
  rewrite list_elem_of_difference. intros [Hl Hk]. by apply Hk, Hall.
Qed.

Lemma lookup_BalancePoll_counted (l : list Timer) (i : nat) ms b :
  l !! i = Some (BalancePoll ms b) →
  0 < length (List.filter Subscriptions.isBalancePoll l).
Proof.
  revert i. induction l as [|x l IH]; intros [|i] Hi; simplify_eq/=; [lia|].
  destruct (Subscriptions.isBalancePoll x); simpl; [lia|]. by eapply IH.
Qed.

Section Runs.
Context {reader : Js.StringReader}.

Lemma run_snoc r cs c : run r (cs ++ [c]) = dispatch (run r cs) c.
Proof. unfold run. by rewrite foldl_snoc. Qed.

Lemma no_Resubscribe_run now answers answer cs :
  Forall (λ t, Subscriptions.isResubscribe t = false)
    (timers (run (initialize now answers answer boot).2 cs)).
Proof.
  destruct (Subscriptions.run_stable _ cs
              (Subscriptions.no_Resubscribe_initialize now answers answer)) as [Ht _].
  eapply Subscriptions.Forall_isResubscribe_erase; [exact Ht|].
  apply Subscriptions.no_Resubscribe_initialize.
Qed.

Lemma fallbackPolls_run now answers answer cs :
  Subscriptions.fallbackPolls (run (initialize now answers answer boot).2 cs)
  = if bool_decide (Subscriptions.opened answer TREASURY_EVENTS = []) then 1 else 0.
Proof.
  destruct (Subscriptions.run_stable _ cs
              (Subscriptions.no_Resubscribe_initialize now answers answer)) as [Ht _].
  rewrite <-(Subscriptions.fallbackPolls_initialize now answers answer).
  unfold Subscriptions.fallbackPolls.
  by apply Subscriptions.filter_isBalancePoll_erase.
Qed.

Lemma listeners_run now answers answer cs :
  listeners (run (initialize now answers answer boot).2 cs)
  = Subscriptions.opened answer TREASURY_EVENTS.
Proof.
  destruct (Subscriptions.run_stable _ cs
              (Subscriptions.no_Resubscribe_initialize now answers answer)) as [_ Hl].
  by rewrite Hl, Subscriptions.initialize_spec.
Qed.

(** The event types the history may hold after [initialize] got [answer]
    from the node: those of the opened subscriptions, or, when none opened,
    that of the poller. *)
Definition allowed (answer : string → Completion ()) (e : BurnEvent) : Prop :=
  if decide (Subscriptions.opened answer TREASURY_EVENTS = [])
  then eventType e = "TreasuryBalanceDecrease"
  else eventType e ∈ Subscriptions.opened answer TREASURY_EVENTS.

Lemma allowed_run now answers answer cs :
  Forall (allowed answer)
    (burnEvents (metrics (watcher (run (initialize now answers answer boot).2 cs)))).
Proof.
  induction cs as [|c cs IH] using rev_ind.
  { rewrite Subscriptions.initialize_spec. cbn. constructor. }
  rewrite run_snoc.
  pose proof (listeners_run now answers answer cs) as Hl.
  pose proof (fallbackPolls_run now answers answer cs) as Hp.
  set (r := run (initialize now answers answer boot).2 cs) in *.
  destruct c as [t event now'|i now' answers'|i clock getObject|i answer'];
    cbn [dispatch].
  - destruct (bool_decide (t ∈ listeners r)) eqn:Ht; [|done].
    apply bool_decide_eq_true_1 in Ht. cbn [watcher]. unfold processBurnEvent.
    rewrite Aggregator.burnEvents_processBurnEventData. apply Forall_take.
    constructor; [|done]. unfold allowed. cbn [normalize eventType].
    rewrite Hl in Ht. case_decide as Hnil; [|done].
    rewrite Hnil in Ht. by apply elem_of_nil in Ht.
  - by destruct (timers r !! i) as [[]|].
  - destruct (timers r !! i) as [[| ms lastBalance |]|] eqn:Hi; try done.
    apply lookup_BalancePoll_counted in Hi. unfold Subscriptions.fallbackPolls in Hp.
    case_bool_decide as Hnil; [|lia].
    unfold pollCycle, synthesizeBurn.
    destruct (Js.gt _ _); cbn [watcher]; [|done].
    rewrite Aggregator.burnEvents_processBurnEventData. apply Forall_take.
    constructor; [|done]. unfold allowed. by rewrite decide_True.
  - destruct (timers r !! i) as [[| |ms]|] eqn:Hi; try done.
    by rewrite Subscriptions.setupEventSubscription_spec.
Qed.

(** X10.  The two sources of burn events never mix in one process: if
    [initialize] opened at least one subscription, every entry of the
    history, after any run, carries the topic of an opened subscription;
    if it opened none, every entry was inferred by the poller. *)
Theorem sources_never_mix (now : Z) (answers : RefreshAnswers)
    (answer : string → Completion ()) (cs : list Callback) :
  (Subscriptions.opened answer TREASURY_EVENTS ≠ [] →
   Forall (λ e, eventType e ∈ Subscriptions.opened answer TREASURY_EVENTS)
     (burnEvents (metrics (watcher (run (initialize now answers answer boot).2 cs)))))
  ∧ (Subscriptions.opened answer TREASURY_EVENTS = [] →
     Forall (λ e, eventType e = "TreasuryBalanceDecrease")
       (burnEvents (metrics (watcher (run (initialize now answers answer boot).2 cs))))).
Proof.
  pose proof (allowed_run now answers answer cs) as Hall.
  split; intros Hopened.
  - eapply Forall_impl; [exact Hall|]. intros e He. unfold allowed in He.
    by rewrite decide_False in He.
  - eapply Forall_impl; [exact Hall|]. intros e He. unfold allowed in He.
    by rewrite decide_True in He.
Qed.

Lemma unsubscribe_dispatch r c :
  Forall (λ t, Subscriptions.isResubscribe t = false) (timers r) →
  unsubscribe (watcher (dispatch r c)) = unsubscribe (watcher r).
Proof.
  intros Hno. destruct c as [t event now|i now answers|i clock getObject|i answer];
    cbn [dispatch].
  - by case_bool_decide.
  - by destruct (timers r !! i) as [[]|].
  - destruct (timers r !! i) as [[| ms lastBalance |]|] eqn:Hi; try done.
    unfold pollCycle. by destruct (synthesizeBurn _ _ _).
  - destruct (timers r !! i) as [[| |ms]|] eqn:Hi; try done.
    rewrite Forall_lookup in Hno. by specialize (Hno i _ Hi).
Qed.

Lemma unsubscribe_run now answers answer cs :
  unsubscribe (watcher (run (initialize now answers answer boot).2 cs))
  = Subscriptions.chain None (Subscriptions.opened answer TREASURY_EVENTS).
Proof.
  induction cs as [|c cs IH] using rev_ind.
  - by rewrite Subscriptions.initialize_spec.
  - rewrite run_snoc, unsubscribe_dispatch; [done|]. apply no_Resubscribe_run.
Qed.

(** X12.  After [initialize] and any run, [cleanup] closes every
    subscription that was opened and leaves the timers as they were; a
    second [cleanup] changes nothing, and [cleanup] on a watcher that never
    subscribed does nothing. *)
Theorem cleanup_closes_subscriptions (now : Z) (answers : RefreshAnswers)
    (answer : string → Completion ()) (cs : list Callback) :
  listeners (cleanup (run (initialize now answers answer boot).2 cs)).2 = []
  ∧ timers (cleanup (run (initialize now answers answer boot).2 cs)).2
    = timers (run (initialize now answers answer boot).2 cs)
  ∧ (cleanup (cleanup (run (initialize now answers answer boot).2 cs)).2).2
    = (cleanup (run (initialize now answers answer boot).2 cs)).2
  ∧ cleanup boot = (Normal (), boot).
Proof.
  pose proof (listeners_run now answers answer cs) as Hl.
  pose proof (unsubscribe_run now answers answer cs) as Hu.
  set (r := run (initialize now answers answer boot).2 cs) in *.
  assert ((cleanup r).2
          = {| watcher := watcher r; timers := timers r; listeners := [] |}) as Hc.
  { unfold cleanup. rewrite Hu.
    destruct (Subscriptions.opened answer TREASURY_EVENTS) as [|t opened'] eqn:Hopened;
      cbn [Subscriptions.chain default app snd].
    - destruct r as [w ts ls]. cbn in Hl. by rewrite Hl.
    - by rewrite Hl, list_difference_all. }
  rewrite Hc. split; [done|]. split; [done|]. split; [|done].
  unfold cleanup. cbn [watcher timers listeners]. rewrite Hu.
  by destruct (Subscriptions.chain None (Subscriptions.opened answer TREASURY_EVENTS)).
Qed.

(** X13.  Whatever [--refresh] holds and whatever [parseInt] makes of it,
    the delay of the refresh timer that [initialize] registers is the
    requested number of seconds times 1000 when that is 5000 or more, and
    the default of 15000 otherwise: a request below the floor is ignored,
    not raised to the floor.  The refresh so runs every 15000 ms for a
    request that is missing, unreadable or below 5 seconds, at the
    requested pace from 5 up to 2147483 seconds, and every millisecond
    beyond, where the delay no longer fits a timer. *)
Theorem refresh_period_of_option (parseInt : string → option Z) (refresh : string)
    (now : Z) (answers : RefreshAnswers) (answer : string → Completion ()) :
  last (timers (initialize now answers answer (Cli.launch parseInt refresh)).2)
  = Some (RefreshInterval (refreshInterval (Cli.configure parseInt refresh)))
  ∧ (refreshInterval (Cli.configure parseInt refresh) = 15000%Z
     ∨ ∃ seconds, parseInt refresh = Some seconds ∧ (5 ≤ seconds)%Z
                  ∧ refreshInterval (Cli.configure parseInt refresh)
                    = (seconds * 1000)%Z)
  ∧ (parseInt refresh = None →
     Node.period (RefreshInterval (refreshInterval (Cli.configure parseInt refresh)))
     = 15000%Z)
  ∧ (∀ seconds, parseInt refresh = Some seconds → (seconds < 5)%Z →
       Node.period (RefreshInterval (refreshInterval (Cli.configure parseInt refresh)))
       = 15000%Z)
  ∧ (∀ seconds, parseInt refresh = Some seconds → refresh ≠ "" →
       (5 ≤ seconds ≤ 2147483)%Z →
       Node.period (RefreshInterval (refreshInterval (Cli.configure parseInt refresh)))
       = (seconds * 1000)%Z)
  ∧ (∀ seconds, parseInt refresh = Some seconds → refresh ≠ "" →
       (2147483 < seconds)%Z →
       Node.period (RefreshInterval (refreshInterval (Cli.configure parseInt refresh)))
       = 1%Z).
Proof.
  assert (∀ ms, (1 ≤ ms ≤ 2147483647)%Z → Node.timerDelay ms = ms) as Hfits.
  { intros ms Hms. unfold Node.timerDelay, Node.TIMEOUT_MAX.
    by rewrite bool_decide_eq_true_2. }
  assert (∀ ms, (2147483647 < ms)%Z → Node.timerDelay ms = 1%Z) as Hlarge.
  { intros ms Hms. unfold Node.timerDelay, Node.TIMEOUT_MAX.
    rewrite bool_decide_eq_false_2; [done|lia]. }
  assert (∀ seconds, parseInt refresh = Some seconds → refresh ≠ "" → (5 ≤ seconds)%Z →
            refreshInterval (Cli.configure parseInt refresh) = (seconds * 1000)%Z)
    as Hset.
  { intros seconds Hparse Hne Hge. unfold Cli.configure. cbn [Js.truthy].
    rewrite (proj2 (String.eqb_neq _ _) Hne), Hparse. cbn [negb].
    by rewrite bool_decide_eq_true_2 by lia. }
  cbn [Node.period].
  split; [|split; [|split; [|split; [|split]]]].
  - rewrite EventLoop.initialize_general. cbn [timers]. by rewrite last_snoc.
  - unfold Cli.configure. destruct (Js.truthy (Js.String refresh)); [|by left].
    destruct (parseInt refresh) as [seconds|]; [|by left].
    case_bool_decide; [|by left]. right. exists seconds. cbn. repeat split; lia.
  - intros Hparse. unfold Cli.configure. rewrite Hparse.
    by destruct (Js.truthy (Js.String refresh)).
  - intros seconds Hparse Hlt. unfold Cli.configure. rewrite Hparse.
    destruct (Js.truthy (Js.String refresh)); [|done].
    by rewrite bool_decide_eq_false_2 by lia.
  - intros seconds Hparse Hne Hs. rewrite (Hset seconds) by (done || lia).
    apply Hfits. lia.
  - intros seconds Hparse Hne Hs. rewrite (Hset seconds) by (done || lia).
    apply Hlarge. lia.
Qed.

End Runs.

Lemma refresh_period_of_option_witness :
  (λ _ : string, Some 2147484%Z) "2147484" = Some 2147484%Z
  ∧ "2147484" ≠ ""
  ∧ (2147483 < 2147484)%Z
  ∧ Node.period (RefreshInterval
      (refreshInterval (Cli.configure (λ _, Some 2147484%Z) "2147484"))) = 1%Z.
Proof.
  assert ("2147484" ≠ "") as Hne by done.
  split; [reflexivity|]. split; [exact Hne|]. split; [lia|].
  exact (proj2 (proj2 (proj2 (proj2 (proj2 (refresh_period_of_option
           (reader := DecimalReader.reader)
           (λ _, Some 2147484%Z) "2147484" 0 Refresh.unreachable PollerRuns.refusesAll)))))
           2147484%Z eq_refl Hne ltac:(lia)).
Defined.

End Runs.

(** ** The earlier version in operation *)

Module IndexTsRuns.
Import IndexTs.

(** X14.  In [index.ts] the single subscription is retried until it opens:
    after any number of failed attempts exactly one retry is pending, 5000
    ms ahead, and nothing is subscribed; the first attempt that succeeds
    registers the subscription, stores its handle and leaves no retry
    pending. *)
Theorem index_ts_retry_until_subscribed (errors : list string) :
  (errors ≠ [] →
   pendingRetries (IndexTsFacts.attempts (Throw <$> errors) IndexTsFacts.boot) = [5000%Z]
   ∧ listeners (IndexTsFacts.attempts (Throw <$> errors) IndexTsFacts.boot) = []
   ∧ unsubscribe (watcher (IndexTsFacts.attempts (Throw <$> errors) IndexTsFacts.boot))
     = None)
  ∧ pendingRetries
      (IndexTsFacts.attempts ((Throw <$> errors) ++ [Normal ()]) IndexTsFacts.boot) = []
  ∧ listeners
      (IndexTsFacts.attempts ((Throw <$> errors) ++ [Normal ()]) IndexTsFacts.boot)
    = [DEEP_BURN_EVENT]
  ∧ unsubscribe (watcher
      (IndexTsFacts.attempts ((Throw <$> errors) ++ [Normal ()]) IndexTsFacts.boot))
    = Some DEEP_BURN_EVENT.
Proof.
  assert (errors ≠ [] →
    pendingRetries (IndexTsFacts.attempts (Throw <$> errors) IndexTsFacts.boot) = [5000%Z]
    ∧ listeners (IndexTsFacts.attempts (Throw <$> errors) IndexTsFacts.boot) = []
    ∧ unsubscribe (watcher (IndexTsFacts.attempts (Throw <$> errors) IndexTsFacts.boot))
      = None) as Hfail.
  { destruct errors as [|e errors]; [done|]. intros _.
    cbn [IndexTsFacts.attempts fmap list_fmap].
    induction errors as [|e' errors IH] using rev_ind; [done|].
    rewrite fmap_snoc, foldl_snoc.
    set (r := foldl _ _ _) in *. destruct IH as (Hp & Hl & Hu).
    unfold retryFires. rewrite Hp. simpl. by rewrite Hl, Hu. }
  split; [exact Hfail|].
  destruct errors as [|e errors]; [done|].
  destruct Hfail as (Hp & Hl & Hu); [done|].
  cbn [IndexTsFacts.attempts fmap list_fmap app] in *.
  rewrite foldl_snoc. set (r := foldl _ _ _) in *.
  unfold retryFires. rewrite Hp. simpl. by rewrite Hl.
Qed.

Section IndexTsRuns.
Context {reader : Js.StringReader}.

Lemma ToNumber_zero : Js.ToNumber (Js.String "0") = Js.of_Z 0.
Proof. by apply (Normalizer.ToNumber_decimal 0). Qed.

Lemma zero_div_pow10 (d : nat) : Js.div (Js.of_Z 0) (Js.pow10 d) = Js.of_Z 0.
Proof.
  unfold Js.of_Z at 1. rewrite JsFacts.div_pow10_fin. unfold Js.of_Z. f_equal.
  rewrite Z2Qc_inj_0. unfold Qcdiv. ring.
Qed.

(** X16.  In [index.ts] a refresh is all or nothing on the metadata: when
    the metadata query is rejected or answers nothing, the snapshot is left
    exactly as it was, even if the pool query succeeded; when the metadata
    has no [supply] field, [currentSupply] is set to 0 whatever it was; and
    a rejected pool query only zeroes [poolBalance]. *)
Theorem index_ts_refresh_all_or_nothing (now : Z) (error : string) (d : nat)
    (getObject : Completion Watcher.SuiObjectResponse) (w : DeepBurnWatcher)
    (metadata : IndexTsQueries.CoinMetadata) :
  IndexTsQueries.fetchAllMetrics now (Throw error) getObject w = w
  ∧ IndexTsQueries.fetchAllMetrics now (Normal None) getObject w = w
  ∧ currentSupply (metrics (IndexTsQueries.fetchAllMetrics now
      (Normal (Some {| IndexTsQueries.decimals := d;
                       IndexTsQueries.supply := Js.Undefined |})) getObject w))
    = Js.of_Z 0
  ∧ poolBalance (metrics (IndexTsQueries.fetchAllMetrics now
      (Normal (Some metadata)) (Throw error) w)) = Js.of_Z 0
  ∧ totalBurned (metrics (IndexTsQueries.fetchAllMetrics now
      (Normal (Some metadata)) (Throw error) w)) = totalBurned (metrics w).
Proof.
  split; [done|]. split; [done|]. split.
  - change (currentSupply _) with
      (Js.div (Js.ToNumber (Js.String "0")) (Js.pow10 d)).
    by rewrite ToNumber_zero, zero_div_pow10.
  - unfold IndexTsQueries.fetchAllMetrics.
    destruct (IndexTsQueries.getTotalSupply (Normal (Some metadata))) eqn:Hs.
    + by split.
    + exfalso. revert Hs. unfold IndexTsQueries.getTotalSupply.
      cbn [mbind Completion_bind].
      destruct (Js.truthy (IndexTsQueries.supply metadata)) eqn:Ht; [|done].
      by destruct (IndexTsQueries.supply metadata).
Qed.

End IndexTsRuns.

End IndexTsRuns.

(** ** The display *)

Module DisplayFacts.
Import Watcher Display.

(** A string without the character [:]. *)
Fixpoint colonFree (s : string) : bool :=
  match s with
  | EmptyString => true
  | String.String c r => negb (Ascii.eqb c colon) && colonFree r
  end.

(** The segments joined by ["::"] in front of [name]. *)
Definition path (segments : list string) (name : string) : string :=
  foldr (λ segment rest, segment +:+ "::" +:+ rest) name segments.

Lemma afterLastSeparator_colonFree (s : string) :
  colonFree s = true → afterLastSeparator s = None.
Proof.
  induction s as [|c r IH]; [done|]. cbn [colonFree].
  intros [Hc Hr]%andb_true_iff. apply negb_true_iff in Hc.
  cbn [afterLastSeparator]. destruct r as [|c' r']; [done|].
  rewrite Hc. cbn [andb]. by apply IH.
Qed.

Lemma afterLastSeparator_segment (segment rest : string) :
  colonFree segment = true →
  afterLastSeparator (segment +:+ "::" +:+ rest)
  = Some (default rest (afterLastSeparator rest)).
Proof.
  induction segment as [|c r IH]; [done|]. cbn [colonFree].
  intros [Hc Hr]%andb_true_iff. apply negb_true_iff in Hc.
  change (String.String c r +:+ "::" +:+ rest)
    with (String.String c (r +:+ "::" +:+ rest)).
  cbn [afterLastSeparator].
  destruct (r +:+ "::" +:+ rest) as [|c' r'] eqn:Heq.
  { by destruct r. }
  rewrite Hc. cbn [andb]. by apply IH.
Qed.

Lemma lastSegment_path (segments : list string) (name : string) :
  Forall (λ s, colonFree s = true) segments → colonFree name = true →
  lastSegment (path segments name) = name.
Proof.
  intros Hsegs Hname. unfold lastSegment.
  induction Hsegs as [|segment segments Hseg _ IH].
  - cbn [path foldr]. by rewrite afterLastSeparator_colonFree.
  - cbn [path foldr]. fold (path segments name).
    rewrite afterLastSeparator_segment by done. exact IH.
Qed.

(** X20.  The type column of the burns table shows the last segment of a
    ["::"]-separated event type whose segments contain no colon, the whole
    type when that segment is empty, and the whole type when it has no
    separator at all, as for the events of the poller. *)
Theorem shortType_last_segment (segments : list string) (name : string) :
  Forall (λ s, colonFree s = true) segments → colonFree name = true →
  (name ≠ "" → shortType (path segments name) = name)
  ∧ shortType (path segments "") = path segments ""
  ∧ shortType name = name.
Proof.
  intros Hsegs Hname.
  assert (∀ s, s ≠ "" → Js.truthy (Js.String s) = true) as Htruthy.
  { intros s Hs. cbn. by apply negb_true_iff, String.eqb_neq. }
  split; [|split].
  - intros Hne. unfold shortType. rewrite lastSegment_path by done.
    by rewrite Htruthy.
  - unfold shortType. by rewrite lastSegment_path.
  - unfold shortType, lastSegment. rewrite afterLastSeparator_colonFree by done.
    cbn [default]. by destruct (Js.truthy (Js.String name)).
Qed.

Lemma shortType_last_segment_witness :
  Forall (λ s, colonFree s = true)
    ["0x2c8d603bc51326b8c13cef9dd07031a408a48dddb541963357661df5d3204809"; "treasury"]
  ∧ colonFree "DeepBurnEvent" = true
  ∧ "DeepBurnEvent" ≠ ""
  ∧ shortType (path
      ["0x2c8d603bc51326b8c13cef9dd07031a408a48dddb541963357661df5d3204809"; "treasury"]
      "DeepBurnEvent") = "DeepBurnEvent".
Proof.
  assert (Forall (λ s, colonFree s = true)
    ["0x2c8d603bc51326b8c13cef9dd07031a408a48dddb541963357661df5d3204809"; "treasury"])
    as Hsegs by (repeat constructor).
  assert (colonFree "DeepBurnEvent" = true) as Hname by reflexivity.
  assert ("DeepBurnEvent" ≠ "") as Hne by done.
  split; [exact Hsegs|]. split; [exact Hname|]. split; [exact Hne|].
  exact (proj1 (shortType_last_segment _ "DeepBurnEvent" Hsegs Hname) Hne).
Defined.

End DisplayFacts.

(** ** Bounds on the burn figures *)

Module Bounds.
Import Watcher.

Section Bounds.
Context {reader : Js.StringReader}.

(** X22.  Both producers hand non-negative amounts to the aggregator: the
    normalizer whenever the first truthy candidate of the payload is a
    decimal numeral (as the ledger writes a [u64]), the poller always. *)
Theorem producers_give_nonneg_amounts (w : DeepBurnWatcher) (event : SuiEvent)
    (eventType k : string) (n : N) (previous current : Js.number) (clock : Clock)
    (burnEvent : BurnEvent) :
  (Normalizer.first_truthy (parsedJson event) = Some k →
   field (parsedJson event) k = Js.String (pretty n) →
   Aggregator.nonneg_amount (normalize w event eventType))
  ∧ (synthesizeBurn previous current clock = Some burnEvent →
     Aggregator.nonneg_amount burnEvent).
Proof.
  split.
  - apply Normalizer.normalize_decimal_nonneg.
  - apply Fallback.synthesizeBurn_nonneg.
Qed.

(** X23.  The same payload counts differently in the two versions: with
    [amount] a decimal numeral [n], [index.ts] adds [n] to [totalBurned]
    and the current version adds [n / 10^d]. *)
Theorem amount_raw_in_index_ts (now : Z) (tx eventType : string) (ts : Js.value)
    (payload : gmap string Js.value) (n : N)
    (old : IndexTs.DeepBurnWatcher) (w : DeepBurnWatcher) :
  payload !! "amount" = Some (Js.String (pretty n)) →
  IndexTs.totalBurned (IndexTs.metrics (IndexTs.processBurnEvent now
    {| txDigest := tx; parsedJson := Some payload; timestampMs := ts |} old))
  = Js.add (IndexTs.totalBurned (IndexTs.metrics old)) (Js.of_Z (Z.of_N n))
  ∧ totalBurned (metrics (processBurnEvent now
      {| txDigest := tx; parsedJson := Some payload; timestampMs := ts |} eventType w))
    = Js.add (totalBurned (metrics w))
        (Js.Fin (Qc_of_Z (Z.of_N n) / Qc_of_Z (10 ^ Z.of_nat (DEEP_DECIMALS w)))%Qc).
Proof.
  intros Hamount.
  destruct (Queries.get_numeral payload "amount" n Hamount) as [Hget Htruthy].
  split.
  - cbn [IndexTs.processBurnEvent IndexTs.calculateBurnRates IndexTs.metrics
         IndexTs.totalBurned IndexTs.amount parsedJson field].
    rewrite Htruthy, Hget. f_equal. by apply (Normalizer.ToNumber_decimal n).
  - unfold processBurnEvent. rewrite Aggregator.totalBurned_processBurnEventData.
    f_equal. cbn [normalize amount parsedJson]. unfold extractAmount. cbn [field].
    rewrite Htruthy, Hget, (Normalizer.ToNumber_decimal n) by done.
    unfold Js.of_Z. apply JsFacts.div_pow10_fin.
Qed.

End Bounds.

Lemma producers_give_nonneg_amounts_witness :
  Normalizer.first_truthy
    (parsedJson {| txDigest := "9xQ";
                   parsedJson := Some {[ "amount" := Js.String (pretty 500%N) ]};
                   timestampMs := Js.Null |}) = Some "amount"
  ∧ Aggregator.nonneg_amount
      (normalize (reader := DecimalReader.reader) constructor
         {| txDigest := "9xQ";
            parsedJson := Some {[ "amount" := Js.String (pretty 500%N) ]};
            timestampMs := Js.Null |} "topic").
Proof.
  assert (Normalizer.first_truthy
    (parsedJson {| txDigest := "9xQ";
                   parsedJson := Some {[ "amount" := Js.String (pretty 500%N) ]};
                   timestampMs := Js.Null |}) = Some "amount") as Hk
    by (vm_compute; reflexivity).
  split; [exact Hk|].
  exact (proj1 (producers_give_nonneg_amounts (reader := DecimalReader.reader)
           constructor _ "topic" "amount" 500 Js.NaN Js.NaN Fallback.noon
           (Aggregator.sample "a" 1 1)) Hk eq_refl).
Defined.

Lemma amount_raw_in_index_ts_witness :
  ({[ "amount" := Js.String (pretty 500%N) ]} : gmap string Js.value) !! "amount"
  = Some (Js.String (pretty 500%N))
  ∧ IndexTs.totalBurned (IndexTs.metrics
      (IndexTs.processBurnEvent (reader := DecimalReader.reader) 3
         {| txDigest := "9xQ";
            parsedJson := Some {[ "amount" := Js.String (pretty 500%N) ]};
            timestampMs := Js.Null |} IndexTs.constructor))
    = Js.add (IndexTs.totalBurned (IndexTs.metrics IndexTs.constructor))
        (Js.of_Z (Z.of_N 500)).
Proof.
  assert (({[ "amount" := Js.String (pretty 500%N) ]} : gmap string Js.value)
          !! "amount" = Some (Js.String (pretty 500%N))) as Hk
    by (vm_compute; reflexivity).
  split; [exact Hk|].
  exact (proj1 (amount_raw_in_index_ts (reader := DecimalReader.reader) 3 "9xQ" "topic"
           Js.Null _ 500 IndexTs.constructor constructor Hk)).
Defined.

Lemma first_present_agrees_witness :
  (∀ k, k ∈ Normalizer.candidates →
        is_Some (Some ({[ "value" := Js.String (pretty 7%N) ]} : gmap string Js.value)
                 ≫= (.!! k)) →
        Js.truthy (field (Some {[ "value" := Js.String (pretty 7%N) ]}) k) = true)
  ∧ extractAmount (reader := DecimalReader.reader) constructor
      (Some {[ "value" := Js.String (pretty 7%N) ]})
    = Normalizer.amount_of_first_present (reader := DecimalReader.reader) constructor
        (Some {[ "value" := Js.String (pretty 7%N) ]}).
Proof.
  assert (∀ k, k ∈ Normalizer.candidates →
        is_Some (Some ({[ "value" := Js.String (pretty 7%N) ]} : gmap string Js.value)
                 ≫= (.!! k)) →
        Js.truthy (field (Some {[ "value" := Js.String (pretty 7%N) ]}) k) = true)
    as Hall.
  { intros k Hk Hsome. unfold Normalizer.candidates in Hk.
    repeat (apply elem_of_cons in Hk as [->|Hk]);
      try (by apply elem_of_nil in Hk);
      first [ vm_compute; reflexivity
            | exfalso; destruct Hsome as [v Hv]; vm_compute in Hv; discriminate ]. }
  split; [exact Hall|].
  exact (Normalizer.first_present_agrees (reader := DecimalReader.reader) constructor
           _ Hall).
Defined.

End Bounds.
